(** * sys-doctor: collection-and-scoring pipeline

    A shallow embedding of [sys-doctor-v1.py] (Smart Linux System Health
    Analyzer) and the properties of its scoring engine, suggestion engine,
    environment preparer and main pipeline.

    Conventions of the embedding:
    - a Python [str] is a [string] (the UTF-8 bytes of the text);
    - a Python [int] is a [Z]; a Python [float] is a [pynum] (a rational, an
      infinity or NaN), compared exactly as IEEE comparison does;
    - a Python [dict] is an association list in insertion order;
    - the operating system (search path, utilities' output, effective uid,
      standard input) is a [World]; every interaction with it is recorded as
      an [event];
    - code that can raise or exit returns an [outcome]. *)

From Stdlib Require Import ZArith QArith List Bool Ascii String Lia Lqa.
Import ListNotations.

Local Open Scope string_scope.
Local Open Scope Z_scope.

(* ================================================================== *)
(** ** Python strings *)
(* ================================================================== *)

Module PyStr.

(** [str.lower] on one byte: the letters A..Z are mapped to a..z.  The
    bytes of non-ASCII characters are left as they are; the program only
    searches lowered text for the ASCII keywords "nvidia", "amd", "intel"
    and "llvmpipe" and for a leading "y". *)
Definition lower_ascii (c : ascii) : ascii :=
  let n := nat_of_ascii c in
  if ((65 <=? n)%nat && (n <=? 90)%nat)%bool then ascii_of_nat (n + 32) else c.

(** [s.lower()] *)
Fixpoint lower (s : string) : string :=
  match s with
  | EmptyString => EmptyString
  | String c s' => String (lower_ascii c) (lower s')
  end.

(** [s.startswith(p)] *)
Fixpoint startswith (p s : string) : bool :=
  match p, s with
  | EmptyString, _ => true
  | String a p', String b s' => (Ascii.eqb a b && startswith p' s')%bool
  | String _ _, EmptyString => false
  end.

(** [needle in hay] *)
Fixpoint contains (needle hay : string) : bool :=
  (startswith needle hay ||
   match hay with
   | EmptyString => false
   | String _ hay' => contains needle hay'
   end)%bool.

(** Truthiness of a string: [bool(s)]. *)
Definition truthy (s : string) : bool :=
  match s with EmptyString => false | String _ _ => true end.

(** [sep.join(l)] *)
Fixpoint join (sep : string) (l : list string) : string :=
  match l with
  | [] => ""
  | [x] => x
  | x :: l' => x ++ sep ++ join sep l'
  end.

(** [w] is the text [k] up to the case of its letters. *)
Definition same_any_case (w k : string) : Prop := lower w = lower k.

(** [k] occurs in [s] in some letter case. *)
Definition occurs_any_case (k s : string) : Prop :=
  exists pre w post, s = pre ++ w ++ post /\ same_any_case w k.

(** [k] occurs in [s] as it is written. *)
Definition occurs (k s : string) : Prop :=
  exists pre post, s = pre ++ k ++ post.

End PyStr.

(* ================================================================== *)
(** ** Python numbers *)
(* ================================================================== *)

(** The value of a Python [float] (or of an [int] used where a float is
    expected): finite values are rationals. *)
Inductive pynum : Type :=
| Fin (q : Q)
| PosInf
| NegInf
| NaN.

Module PyNum.

Definition of_Z (z : Z) : pynum := Fin (inject_Z z).

(** [x >= k] for an integer literal [k] *)
Definition ge_int (x : pynum) (k : Z) : bool :=
  match x with
  | Fin q => Qle_bool (inject_Z k) q
  | PosInf => true
  | NegInf | NaN => false
  end.

(** [x < k] for an integer literal [k] *)
Definition lt_int (x : pynum) (k : Z) : bool :=
  match x with
  | Fin q => negb (Qle_bool (inject_Z k) q)
  | NegInf => true
  | PosInf | NaN => false
  end.

(** [x <= y] *)
Definition le (x y : pynum) : bool :=
  match x, y with
  | NaN, _ | _, NaN => false
  | NegInf, _ => true
  | _, PosInf => true
  | Fin a, Fin b => Qle_bool a b
  | _, _ => false
  end.

End PyNum.

(* ================================================================== *)
(** ** Scoring engine *)
(* ================================================================== *)

(** [cpu_score(cores, mhz)] *)
Definition cpu_score (cores : Z) (mhz : pynum) : Z :=
  let score := if cores >=? 4 then 10 else 5 in
  let score := score + (if PyNum.ge_int mhz 3000 then 10 else 5) in
  Z.min score 25.

(** [gpu_score(gpu, renderer)] *)
Definition gpu_score (gpu renderer : string) : Z :=
  let score := 0 in
  let score :=
    if (PyStr.contains "nvidia" (PyStr.lower gpu)
        || PyStr.contains "amd" (PyStr.lower gpu))%bool
    then score + 10
    else if PyStr.contains "intel" (PyStr.lower gpu)
    then score + 7
    else score + 3 in
  let score :=
    if (PyStr.truthy renderer
        && negb (PyStr.contains "llvmpipe" (PyStr.lower renderer)))%bool
    then score + 10
    else score + 3 in
  Z.min score 25.

(** [ram_score(gb)] *)
Definition ram_score (gb : pynum) : Z :=
  if PyNum.ge_int gb 16 then 20
  else if PyNum.ge_int gb 8 then 13
  else if PyNum.ge_int gb 4 then 8
  else 4.

(** [disk_score(status)] *)
Definition disk_score (status : string) : Z :=
  if (status =? "Healthy")%string then 20 else 8.

(* ================================================================== *)
(** ** Suggestion engine *)
(* ================================================================== *)

Definition tip_cpu : string := "CPU is aging. Consider upgrading in the future.".
Definition tip_gpu : string := "GPU is outdated. Upgrade recommended for graphics.".
Definition tip_ram : string := "Upgrade RAM to at least 8–16 GB.".
Definition tip_disk : string := "Disk health warning. Backup data and replace disk.".
Definition tip_balanced : string := "System is well balanced. No upgrade needed now.".

(** [ai_suggestions(cpu, gpu, ram, disk)]: [tips] is threaded through the
    four conditional appends and the final fallback. *)
Definition ai_suggestions (cpu gpu ram disk : Z) : list string :=
  let tips : list string := [] in
  let tips := if cpu <? 12 then (tips ++ [tip_cpu])%list else tips in
  let tips := if gpu <? 12 then (tips ++ [tip_gpu])%list else tips in
  let tips := if ram <? 13 then (tips ++ [tip_ram])%list else tips in
  let tips := if disk <? 15 then (tips ++ [tip_disk])%list else tips in
  let tips := match tips with
              | [] => (tips ++ [tip_balanced])%list
              | _ :: _ => tips
              end in
  tips.

(* ================================================================== *)
(** ** Text processing used by the collectors *)
(* ================================================================== *)

Module PyText.

(** White space as [str.split()] and [str.strip()] see it, on the ASCII
    range: tab, line feed, vertical tab, form feed, carriage return, the
    four separators 28..31 and the space. *)
Definition isspace (c : ascii) : bool :=
  let n := nat_of_ascii c in
  (((9 <=? n)%nat && (n <=? 13)%nat) || ((28 <=? n)%nat && (n <=? 32)%nat))%bool.

Fixpoint lstrip (s : string) : string :=
  match s with
  | EmptyString => EmptyString
  | String c s' => if isspace c then lstrip s' else s
  end.

Fixpoint rstrip (s : string) : string :=
  match s with
  | EmptyString => EmptyString
  | String c s' =>
      match rstrip s' with
      | EmptyString => if isspace c then EmptyString else String c EmptyString
      | r => String c r
      end
  end.

(** [s.strip()] *)
Definition strip (s : string) : string := rstrip (lstrip s).

Fixpoint split_ws_from (s cur : string) : list string :=
  match s with
  | EmptyString => if PyStr.truthy cur then [cur] else []
  | String c s' =>
      if isspace c
      then (if PyStr.truthy cur then cur :: split_ws_from s' "" else split_ws_from s' "")
      else split_ws_from s' (cur ++ String c "")
  end.

(** [s.split()]: the maximal runs of characters that are not white space. *)
Definition split (s : string) : list string := split_ws_from s "".

Fixpoint split_once_from (sep : ascii) (s cur : string) : list string :=
  match s with
  | EmptyString => [cur]
  | String c s' =>
      if Ascii.eqb c sep then [cur; s']
      else split_once_from sep s' (cur ++ String c "")
  end.

(** [s.split(sep, 1)] for a one-character separator. *)
Definition split_once (sep : ascii) (s : string) : list string :=
  split_once_from sep s "".

Definition is_linebreak (c : ascii) : bool :=
  let n := nat_of_ascii c in
  (((10 <=? n)%nat && (n <=? 13)%nat) || ((28 <=? n)%nat && (n <=? 30)%nat))%bool.

Fixpoint splitlines_from (s cur : string) : list string :=
  match s with
  | EmptyString => if PyStr.truthy cur then [cur] else []
  | String c s' =>
      if Ascii.eqb c (ascii_of_nat 13)
      then match s' with
           | String d s'' =>
               if Ascii.eqb d (ascii_of_nat 10)
               then cur :: splitlines_from s'' ""
               else cur :: splitlines_from s' ""
           | EmptyString => [cur]
           end
      else if is_linebreak c then cur :: splitlines_from s' ""
      else splitlines_from s' (cur ++ String c "")
  end.

(** [s.splitlines()] on the ASCII line boundaries. *)
Definition splitlines (s : string) : list string := splitlines_from s "".

End PyText.

(** [l[1]] and [l[-1]]: [None] stands for the [IndexError]. *)
Definition index1 {A : Type} (l : list A) : option A := nth_error l 1.

Fixpoint index_last {A : Type} (l : list A) : option A :=
  match l with
  | [] => None
  | [x] => Some x
  | _ :: l' => index_last l'
  end.

(* ================================================================== *)
(** ** Python dictionaries and sets *)
(* ================================================================== *)

Module PyDict.

Definition dict (V : Type) : Type := list (string * V).

(** [d[k] = v]: an existing key keeps its position. *)
Fixpoint set_item {V : Type} (d : dict V) (k : string) (v : V) : dict V :=
  match d with
  | [] => [(k, v)]
  | (k', v') :: d' =>
      if (k' =? k)%string then (k, v) :: d' else (k', v') :: set_item d' k v
  end.

(** [d.update(e)] *)
Definition update {V : Type} (d e : dict V) : dict V :=
  fold_left (fun acc kv => set_item acc (fst kv) (snd kv)) e d.

(** [d.get(k, default)] *)
Fixpoint get {V : Type} (d : dict V) (k : string) (default : V) : V :=
  match d with
  | [] => default
  | (k', v) :: d' => if (k' =? k)%string then v else get d' k default
  end.

(** [d.values()] *)
Definition values {V : Type} (d : dict V) : list V := map snd d.

End PyDict.

(** [set(l)] of strings: the members of [l], each once.  The order in which
    Python iterates over such a set is not specified; the members are kept
    here in the order of their last occurrence in [l]. *)
Definition py_set (l : list string) : list string := nodup string_dec l.

(* ================================================================== *)
(** ** The world and the effects of the program *)
(* ================================================================== *)

(** What the program reads from its environment. *)
Record World : Type := {
  (** [shutil.which(cmd) is not None] *)
  which : string -> bool;
  (** [subprocess.getoutput(cmd).strip()]: the captured, stripped output *)
  run_output : string -> string;
  (** [os.geteuid()] *)
  geteuid : Z;
  (** the interpreter's [int(text)]; [None] is the [ValueError] *)
  py_int : string -> option Z;
  (** the interpreter's [float(text)]; [None] is the [ValueError] *)
  py_float : string -> option pynum
}.

Inductive exn : Type := IndexError | ValueError | EOFError.

Inductive outcome (A : Type) : Type :=
| Ret (a : A)          (* normal completion *)
| Raise (e : exn)      (* uncaught exception *)
| Exit (code : Z).     (* [sys.exit(code)] *)

Arguments Ret {A} a.
Arguments Raise {A} e.
Arguments Exit {A} code.

(** A line of the report, kept as the values its f-string interpolates. *)
Inductive report_line : Type :=
| CpuLine (model : string) (score : Z)      (* CPU : {model} ({cpu_s}/25) *)
| GpuLine (score : Z)                       (* GPU : {gpu_s}/25 *)
| RamLine (gb : pynum) (score : Z)          (* RAM : {gb} GB ({ram_s}/20) *)
| DiskLine (status : string) (score : Z).   (* Disk: {status} ({disk_s}/20) *)

(** What the program does to its environment, in order. *)
Inductive event : Type :=
| Print (text : string)                 (* [print] of a fixed text, without its leading line break *)
| PrintMissing (cmd pkg : string)       (* [print(f" - {c} ({p})")] *)
| PrintLine (r : report_line)           (* [print(r)] of a report line *)
| PrintTotal (total : Z)                (* [print(f"\nTOTAL SCORE: {total}/100")] *)
| PrintTip (tip : string)               (* [print(f"- {tip}")] *)
| Prompt (msg : string)                 (* [input(msg)] *)
| Run (cmd : string)                    (* [subprocess.getoutput(cmd)] *)
| AptInstall (pkgs : list string).      (* [subprocess.run(f"apt install -y {pkgs}", shell=True)] *)

(** A computation reads lines of standard input and yields an outcome, the
    input left over and the events it caused. *)
Definition M (A : Type) : Type :=
  list string -> outcome A * list string * list event.

Definition ret {A : Type} (a : A) : M A := fun i => (Ret a, i, []).

Definition bind {A B : Type} (m : M A) (k : A -> M B) : M B :=
  fun i =>
    match m i with
    | (Ret a, i', t) =>
        match k a i' with
        | (r, i'', t') => (r, i'', (t ++ t')%list)
        end
    | (Raise e, i', t) => (Raise e, i', t)
    | (Exit c, i', t) => (Exit c, i', t)
    end.

Definition raise {A : Type} (e : exn) : M A := fun i => (Raise e, i, []).
Definition sys_exit {A : Type} (code : Z) : M A := fun i => (Exit code, i, []).
Definition emit (e : event) : M unit := fun i => (Ret tt, i, [e]).

(** [input(msg)]: the next line of standard input, [EOFError] at its end. *)
Definition input (msg : string) : M string :=
  fun i =>
    match i with
    | [] => (Raise EOFError, [], [Prompt msg])
    | l :: i' => (Ret l, i', [Prompt msg])
    end.

(** An optional value whose absence is the exception [e]. *)
Definition or_raise {A : Type} (e : exn) (o : option A) : M A :=
  match o with
  | Some a => ret a
  | None => raise e
  end.

Notation "x <- m ;; k" := (bind m (fun x => k))
  (at level 61, m at next level, right associativity).
Notation "' pat <- m ;; k" := (bind m (fun x => match x with pat => k end))
  (at level 61, pat pattern, m at next level, right associativity).
Notation "m ;;; k" := (bind m (fun _ => k))
  (at level 61, right associativity).

(** [for x in l: body x] *)
Fixpoint for_each {A : Type} (l : list A) (body : A -> M unit) : M unit :=
  match l with
  | [] => ret tt
  | x :: l' => body x ;;; for_each l' body
  end.

Definition result_of {A : Type} (r : outcome A * list string * list event) : outcome A :=
  fst (fst r).
Definition trace_of {A : Type} (r : outcome A * list string * list event) : list event :=
  snd r.

(** [x in l] for a list of strings *)
Definition str_in (x : string) (l : list string) : bool :=
  existsb (fun y => (y =? x)%string) l.

(* ================================================================== *)
(** ** Tools per test *)
(* ================================================================== *)

Definition TOOLS_BY_TEST : PyDict.dict (PyDict.dict string) :=
  [ ("cpu",  [ ("lscpu", "util-linux") ]);
    ("gpu",  [ ("lspci", "pciutils"); ("lsmod", "kmod"); ("glxinfo", "mesa-utils") ]);
    ("ram",  []);
    ("disk", [ ("lsblk", "util-linux"); ("smartctl", "smartmontools") ]) ].

(* ================================================================== *)
(** ** The program *)
(* ================================================================== *)

Section Doctor.

Variable w : World.

(** *** Utils *)

Definition run (cmd : string) : M string :=
  emit (Run cmd) ;;; ret (run_output w cmd).

Definition exists_ (cmd : string) : bool := which w cmd.

Definition require_root : M unit :=
  if negb (geteuid w =? 0)
  then emit (Print "❌ Please run with sudo") ;;; sys_exit 1
  else ret tt.

Definition ask (msg : string) : M bool :=
  line <- input msg ;;
  ret (PyStr.startswith "y" (PyStr.lower line)).

(** *** Test selection *)

Definition choose_tests : M (list string) :=
  emit (Print "Select tests to run:") ;;;
  emit (Print "1) CPU") ;;;
  emit (Print "2) GPU") ;;;
  emit (Print "3) RAM") ;;;
  emit (Print "4) Disk (SMART)") ;;;
  emit (Print "5) Full system") ;;;
  line <- input "Your choice [1-5]: " ;;
  let choice := PyText.strip line in
  if (choice =? "1")%string then ret ["cpu"]
  else if (choice =? "2")%string then ret ["gpu"]
  else if (choice =? "3")%string then ret ["ram"]
  else if (choice =? "4")%string then ret ["disk"]
  else if (choice =? "5")%string then ret ["cpu"; "gpu"; "ram"; "disk"]
  else ret [].

(** *** Prepare only needed tools *)

(** The dictionary [needed] after the loop over [tests]. *)
Definition needed_tools (tests : list string) : PyDict.dict string :=
  fold_left (fun needed t => PyDict.update needed (PyDict.get TOOLS_BY_TEST t []))
            tests [].

(** [{c: p for c, p in needed.items() if not exists(c)}] *)
Definition missing_tools (tests : list string) : PyDict.dict string :=
  filter (fun cp => negb (exists_ (fst cp))) (needed_tools tests).

Definition prepare_environment (tests : list string) : M bool :=
  let missing := missing_tools tests in
  match missing with
  | [] => ret true
  | _ :: _ =>
      emit (Print "⚠️ Missing tools for selected tests:") ;;;
      for_each missing (fun cp => emit (PrintMissing (fst cp) (snd cp))) ;;;
      yes <- ask "Install missing tools now? [y/N]: " ;;
      if yes then
        require_root ;;;
        let pkgs := py_set (PyDict.values missing) in
        emit (AptInstall pkgs) ;;;
        ret true
      else
        emit (Print "ℹ️ Skipping related tests.") ;;;
        ret false
  end.

(** *** CPU *)

Definition cpu_info : M (string * Z * pynum) :=
  out <- run "lscpu | grep 'Model name'" ;;
  field <- or_raise IndexError (index1 (PyText.split_once ":" out)) ;;
  let model := PyText.strip field in
  out <- run "lscpu | grep '^CPU(s):'" ;;
  tok <- or_raise IndexError (index_last (PyText.split out)) ;;
  cores <- or_raise ValueError (py_int w tok) ;;
  max_mhz <- run "lscpu | grep 'max MHz'" ;;
  max_mhz <- (if PyStr.truthy max_mhz
              then tok <- or_raise IndexError (index_last (PyText.split max_mhz)) ;;
                   or_raise ValueError (py_float w tok)
              else ret (PyNum.of_Z 0)) ;;
  ret (model, cores, max_mhz).

(** *** GPU *)

Definition gpu_info : M (string * string) :=
  gpu <- run "lspci | egrep -i 'vga|3d|display'" ;;
  renderer <- run "glxinfo 2>/dev/null | grep 'OpenGL renderer'" ;;
  ret (gpu, renderer).

(** *** RAM *)

(** [round(total_kb / 1024 / 1024, 1)]: the quotient rounded to one
    decimal, ties to the even digit.  The value is kept as the exact
    tenth; the float Python returns is the one nearest to it, which
    compares with the integers 4, 8 and 16 the same way.  Exact for
    [total_kb] below 2^53 in magnitude. *)
Definition round_gb (total_kb : Z) : pynum :=
  let n := total_kb * 10 in
  let q := n / 1048576 in
  let r := n mod 1048576 in
  let tenths :=
    if 2 * r <? 1048576 then q
    else if 1048576 <? 2 * r then q + 1
    else if Z.even q then q else q + 1 in
  Fin (Qmake tenths 10).

Definition ram_info : M pynum :=
  out <- run "grep MemTotal /proc/meminfo" ;;
  tok <- or_raise IndexError (index1 (PyText.split out)) ;;
  total_kb <- or_raise ValueError (py_int w tok) ;;
  ret (round_gb total_kb).

(** *** Disk *)

(** [f"smartctl -H /dev/{d}"] *)
Definition smart_cmd (d : string) : string := "smartctl -H /dev/" ++ d.

(** The loop of [disk_health] over the device names. *)
Fixpoint disk_health_loop (disks : list string) : M string :=
  match disks with
  | [] => ret "Healthy"
  | d :: disks' =>
      out <- run (smart_cmd d) ;;
      if PyStr.contains "FAILED" out
      then ret "Failing"
      else disk_health_loop disks'
  end.

Definition disk_health : M string :=
  out <- run "lsblk -nd -o NAME" ;;
  let disks := PyText.splitlines out in
  disk_health_loop disks.

(** *** Main *)

(** The body of [main] once the tests are chosen. *)
Definition main_from (tests : list string) : M unit :=
  ready <- prepare_environment tests ;;
  let cpu_s := 0 in
  let gpu_s := 0 in
  let ram_s := 0 in
  let disk_s := 0 in
  let report : list report_line := [] in
  '(cpu_s, report) <-
    (if str_in "cpu" tests
     then '(model, cores, mhz) <- cpu_info ;;
          let cpu_s := cpu_score cores mhz in
          ret (cpu_s, (report ++ [CpuLine model cpu_s])%list)
     else ret (cpu_s, report)) ;;
  '(gpu_s, report) <-
    (if str_in "gpu" tests
     then '(gpu, renderer) <- gpu_info ;;
          let gpu_s := gpu_score gpu renderer in
          ret (gpu_s, (report ++ [GpuLine gpu_s])%list)
     else ret (gpu_s, report)) ;;
  '(ram_s, report) <-
    (if str_in "ram" tests
     then gb <- ram_info ;;
          let ram_s := ram_score gb in
          ret (ram_s, (report ++ [RamLine gb ram_s])%list)
     else ret (ram_s, report)) ;;
  '(disk_s, report) <-
    (if (str_in "disk" tests && ready)%bool
     then status <- disk_health ;;
          let disk_s := disk_score status in
          ret (disk_s, (report ++ [DiskLine status disk_s])%list)
     else ret (disk_s, report)) ;;
  let total := cpu_s + gpu_s + ram_s + disk_s in
  emit (Print "🧾 RESULTS") ;;;
  emit (Print "------------------------------") ;;;
  for_each report (fun r => emit (PrintLine r)) ;;;
  emit (PrintTotal total) ;;;
  emit (Print "AI SUGGESTIONS:") ;;;
  for_each (ai_suggestions cpu_s gpu_s ram_s disk_s) (fun tip => emit (PrintTip tip)).

Definition main : M unit :=
  emit (Print "🐧 sys-doctor v1.1") ;;;
  emit (Print "Smart Linux System Health Analyzer") ;;;
  emit (Print "---------------------------------------------") ;;;
  tests <- choose_tests ;;
  match tests with
  | [] => emit (Print "❌ Invalid choice")
  | _ :: _ => main_from tests
  end.

End Doctor.

(* ================================================================== *)
(** ** Concrete worlds *)
(* ================================================================== *)

(** Decimal literals as the utilities print them; used as [int] and [float]
    of the example worlds. *)
Module Literal.

Definition digit (c : ascii) : option Z :=
  let n := nat_of_ascii c in
  if ((48 <=? n)%nat && (n <=? 57)%nat)%bool then Some (Z.of_nat (n - 48)) else None.

Fixpoint digits (s : string) (acc : Z) : option Z :=
  match s with
  | EmptyString => Some acc
  | String c s' =>
      match digit c with
      | Some d => digits s' (10 * acc + d)
      | None => None
      end
  end.

Definition natural (s : string) : option Z :=
  match s with
  | EmptyString => None
  | String _ _ => digits s 0
  end.

Definition int (s : string) : option Z :=
  match PyText.strip s with
  | String "-" s' => option_map Z.opp (natural s')
  | String "+" s' => natural s'
  | s' => natural s'
  end.

Definition unsigned_float (s : string) : option Q :=
  match PyText.split_once "." s with
  | [i] => option_map inject_Z (natural i)
  | [i; f] =>
      match natural i, natural f with
      | Some a, Some b =>
          let scale := 10 ^ Z.of_nat (String.length f) in
          Some (Qmake (a * scale + b) (Z.to_pos scale))
      | _, _ => None
      end
  | _ => None
  end.

Definition float (s : string) : option pynum :=
  match PyText.strip s with
  | String "-" s' => option_map (fun q => Fin (Qopp q)) (unsigned_float s')
  | String "+" s' => option_map Fin (unsigned_float s')
  | s' => option_map Fin (unsigned_float s')
  end.

End Literal.

(** A table of commands and their outputs; any other command prints nothing. *)
Fixpoint output_table (t : list (string * string)) (cmd : string) : string :=
  match t with
  | [] => ""
  | (c, out) :: t' => if (c =? cmd)%string then out else output_table t' cmd
  end.

Definition mk_world (absent : list string) (outputs : list (string * string))
           (euid : Z) : World :=
  {| which := fun c => negb (str_in c absent);
     run_output := output_table outputs;
     geteuid := euid;
     py_int := Literal.int;
     py_float := Literal.float |}.

(** A machine with an eight-core 3600 MHz processor and 16 GiB of memory. *)
Definition example_outputs : list (string * string) :=
  [ ("lscpu | grep 'Model name'", "Model name:                           Example CPU");
    ("lscpu | grep '^CPU(s):'",   "CPU(s):                               8");
    ("lscpu | grep 'max MHz'",    "CPU max MHz:                          3600.0000");
    ("grep MemTotal /proc/meminfo", "MemTotal:       16777216 kB") ].

Definition example_world : World := mk_world [] example_outputs 1000.

(** An NVIDIA adapter with its hardware renderer. *)
Definition nvidia_adapter : string :=
  "01:00.0 VGA compatible controller: NVIDIA Corporation GA104 [GeForce RTX 3070]".
Definition nvidia_renderer : string :=
  "OpenGL renderer string: NVIDIA GeForce RTX 3070/PCIe/SSE2".

(** *** The suggestion rule in the specification's words *)

Inductive subsystem : Type := CPU | GPU | RAM | Disk.

Definition threshold (s : subsystem) : Z :=
  match s with CPU => 12 | GPU => 12 | RAM => 13 | Disk => 15 end.

Definition tip_for (s : subsystem) : string :=
  match s with
  | CPU => tip_cpu
  | GPU => tip_gpu
  | RAM => tip_ram
  | Disk => tip_disk
  end.

Definition scores (cpu gpu ram disk : Z) (s : subsystem) : Z :=
  match s with CPU => cpu | GPU => gpu | RAM => ram | Disk => disk end.

(** One tip per subsystem whose score is below its threshold, in the fixed
    order CPU, GPU, RAM, Disk. *)
Definition failing_tips (score : subsystem -> Z) : list string :=
  map tip_for (filter (fun s => score s <? threshold s) [CPU; GPU; RAM; Disk]).

(** All four scores meet their thresholds. *)
Definition all_meet (cpu gpu ram disk : Z) : Prop :=
  cpu >= 12 /\ gpu >= 12 /\ ram >= 13 /\ disk >= 15.

(** The SMART output of device [d] reports a failure. *)
Definition smart_failed (w : World) (d : string) : bool :=
  PyStr.contains "FAILED" (run_output w (smart_cmd d)).

(** The SMART queries for the devices [ds], in order. *)
Definition smart_queries (ds : list string) : list event :=
  map (fun d => Run (smart_cmd d)) ds.

(** A machine with three drives of which the second fails its SMART check. *)
Definition failing_disk_world : World :=
  mk_world []
    [ ("lsblk -nd -o NAME", "sda
sdb
nvme0n1");
      ("smartctl -H /dev/sda", "SMART overall-health self-assessment test result: PASSED");
      ("smartctl -H /dev/sdb", "SMART overall-health self-assessment test result: FAILED!");
      ("smartctl -H /dev/nvme0n1", "SMART overall-health self-assessment test result: PASSED") ]
    0.

(** The installer invocations among the events of a run. *)
Definition is_install (e : event) : bool :=
  match e with AptInstall _ => true | _ => false end.

Definition installs (t : list event) : list event := filter is_install t.

(** The lines [prepare_environment] prints for the missing tools. *)
Definition missing_lines (missing : PyDict.dict string) : list event :=
  map (fun cp => PrintMissing (fst cp) (snd cp)) missing.

(** A machine without [lscpu], run by an ordinary user: the shell's complaint
    is all that the three [lscpu] pipelines print. *)
Definition no_lscpu_world : World :=
  mk_world ["lscpu"]
    [ ("lscpu | grep 'Model name'", "/bin/sh: 1: lscpu: not found");
      ("lscpu | grep '^CPU(s):'",   "/bin/sh: 1: lscpu: not found");
      ("lscpu | grep 'max MHz'",    "/bin/sh: 1: lscpu: not found");
      ("grep MemTotal /proc/meminfo", "MemTotal:       16777216 kB") ]
    1000.

(** A machine without [lsblk] and [lscpu] (both from util-linux) and without
    [smartctl], run by root. *)
Definition bare_root_world : World :=
  mk_world ["lscpu"; "lsblk"; "smartctl"] example_outputs 0.

(** The example machine on which [lscpu] prints no model-name line. *)
Definition no_model_world : World :=
  mk_world []
    [ ("lscpu | grep '^CPU(s):'",   "CPU(s):                               8");
      ("lscpu | grep 'max MHz'",    "CPU max MHz:                          3600.0000");
      ("grep MemTotal /proc/meminfo", "MemTotal:       16777216 kB") ]
    1000.

(** The example machine with an Intel adapter and one healthy drive, on which
    [glxinfo] is not installed. *)
Definition no_glxinfo_world : World :=
  mk_world ["glxinfo"]
    (example_outputs ++
     [ ("lspci | egrep -i 'vga|3d|display'",
        "00:02.0 VGA compatible controller: Intel Corporation UHD Graphics 620 (rev 07)");
       ("lsblk -nd -o NAME", "sda");
       ("smartctl -H /dev/sda", "SMART overall-health self-assessment test result: PASSED") ])%list
    1000.

(** The events that print a part of the report. *)
Definition is_report (e : event) : bool :=
  match e with
  | PrintLine _ | PrintTotal _ | PrintTip _ => true
  | _ => false
  end.

(** Nothing of the report is printed among the events [t]. *)
Definition quiet (t : list event) : Prop := filter is_report t = [].

(** A computation that never prints a part of the report. *)
Definition silent {A : Type} (m : M A) : Prop :=
  forall i, quiet (trace_of (m i)).

(** A computation that has printed nothing of the report whenever it ends
    with an exception or an exit. *)
Definition aborts_silently {A : Type} (m : M A) : Prop :=
  forall i, (forall a, result_of (m i) <> Ret a) -> quiet (trace_of (m i)).

(** A virtual machine with two cores whose [lscpu] prints no maximum
    frequency. *)
Definition no_mhz_world : World :=
  mk_world []
    [ ("lscpu | grep 'Model name'", "Model name:                           Virtual CPU");
      ("lscpu | grep '^CPU(s):'",   "CPU(s):                               2");
      ("grep MemTotal /proc/meminfo", "MemTotal:        2097152 kB") ]
    1000.


(** Every tool of the registry with its package. *)
Definition all_tools : PyDict.dict string := List.concat (map snd TOOLS_BY_TEST).

(** The entries of [d] are entries of the registry. *)
Definition registered (d : PyDict.dict string) : Prop :=
  forall c p, In (c, p) d -> In (c, p) all_tools.

(** *** Reading a run's events *)

(** The report lines, totals and tips printed among the events [t]. *)
Definition printed_lines (t : list event) : list report_line :=
  flat_map (fun e => match e with PrintLine r => [r] | _ => [] end) t.

Definition printed_totals (t : list event) : list Z :=
  flat_map (fun e => match e with PrintTotal z => [z] | _ => [] end) t.

Definition printed_tips (t : list event) : list string :=
  flat_map (fun e => match e with PrintTip s => [s] | _ => [] end) t.

(** The subsystem and the score a report line shows. *)
Definition line_subsystem (r : report_line) : subsystem :=
  match r with
  | CpuLine _ _ => CPU
  | GpuLine _ => GPU
  | RamLine _ _ => RAM
  | DiskLine _ _ => Disk
  end.

Definition line_score (r : report_line) : Z :=
  match r with
  | CpuLine _ s | GpuLine s | RamLine _ s | DiskLine _ s => s
  end.

(** The name of a subsystem's test in the selection. *)
Definition test_name (s : subsystem) : string :=
  match s with CPU => "cpu" | GPU => "gpu" | RAM => "ram" | Disk => "disk" end.

(** The condition under which [main] collects a subsystem: its test is
    selected and, for the disk only, [prepare_environment] returned true. *)
Definition collected (tests : list string) (ready : bool) (s : subsystem) : bool :=
  match s with
  | Disk => (str_in "disk" tests && ready)%bool
  | _ => str_in (test_name s) tests
  end.

(** The example machine complete: an Intel adapter with its hardware
    renderer, one healthy drive and every tool installed. *)
Definition healthy_world : World :=
  mk_world []
    (example_outputs ++
     [ ("lspci | egrep -i 'vga|3d|display'",
        "00:02.0 VGA compatible controller: Intel Corporation UHD Graphics 620 (rev 07)");
       ("glxinfo 2>/dev/null | grep 'OpenGL renderer'",
        "OpenGL renderer string: Mesa Intel(R) UHD Graphics 620 (KBL GT2)");
       ("lsblk -nd -o NAME", "sda");
       ("smartctl -H /dev/sda", "SMART overall-health self-assessment test result: PASSED") ])%list
    1000.


(* ================================================================== *)
(** * Properties *)
(* ================================================================== *)

(** ** Scoring engine: CPU *)

Lemma lt_int_not_ge (x : pynum) (k : Z) :
  PyNum.lt_int x k = true -> PyNum.ge_int x k = false.
Proof.
  destruct x as [q| | |]; simpl; try discriminate; try reflexivity.
  intros H. now apply negb_true_iff.
Qed.

(** C6. For every core count [c] and frequency [f]: with [c >= 4] and
    [f >= 3000] the CPU score is 20, and with [c < 4] and [f < 3000] it
    is 10. *)
Theorem cpu_score_both_tiers (c : Z) (f : pynum) :
  (c >= 4 -> PyNum.ge_int f 3000 = true -> cpu_score c f = 20) /\
  (c < 4 -> PyNum.lt_int f 3000 = true -> cpu_score c f = 10).
Proof.
  unfold cpu_score. split.
  - intros Hc Hf. rewrite Hf.
    replace (c >=? 4) with true by (symmetry; apply Z.geb_le; lia).
    reflexivity.
  - intros Hc Hf. rewrite (lt_int_not_ge _ _ Hf).
    destruct (c >=? 4) eqn:E; [apply Z.geb_le in E; lia | reflexivity].
Qed.

Lemma cpu_score_both_tiers_witness :
  cpu_score 8 (Fin 3600) = 20 /\ cpu_score 2 (Fin 1200) = 10.
Proof.
  split.
  - apply (proj1 (cpu_score_both_tiers 8 (Fin 3600))); [lia | reflexivity].
  - apply (proj2 (cpu_score_both_tiers 2 (Fin 1200))); [lia | reflexivity].
Defined.

(** The cap of [cpu_score] never applies: the score is 10, 15 or 20. *)
Lemma cpu_score_values (c : Z) (f : pynum) :
  cpu_score c f = 10 \/ cpu_score c f = 15 \/ cpu_score c f = 20.
Proof.
  unfold cpu_score.
  destruct (c >=? 4), (PyNum.ge_int f 3000); simpl; auto.
Qed.

(** ** Scoring engine: RAM *)

Lemma ge_int_mono (a b : pynum) (k : Z) :
  PyNum.le a b = true -> PyNum.ge_int a k = true -> PyNum.ge_int b k = true.
Proof.
  destruct a as [qa| | |], b as [qb| | |]; simpl; try discriminate; try reflexivity.
  intros Hab Hka.
  apply Qle_bool_iff in Hab. apply Qle_bool_iff in Hka. apply Qle_bool_iff.
  now apply Qle_trans with qa.
Qed.

Lemma ram_score_mono (a b : pynum) :
  PyNum.le a b = true -> ram_score a <= ram_score b.
Proof.
  intros Hab. unfold ram_score.
  pose proof (ge_int_mono a b 16 Hab) as H16.
  pose proof (ge_int_mono a b 8 Hab) as H8.
  pose proof (ge_int_mono a b 4 Hab) as H4.
  destruct (PyNum.ge_int a 16);
    [rewrite (H16 eq_refl); lia|].
  destruct (PyNum.ge_int a 8);
    [rewrite (H8 eq_refl); destruct (PyNum.ge_int b 16); lia|].
  destruct (PyNum.ge_int a 4);
    [rewrite (H4 eq_refl);
     destruct (PyNum.ge_int b 16); [lia|]; destruct (PyNum.ge_int b 8); lia|].
  destruct (PyNum.ge_int b 16); [lia|].
  destruct (PyNum.ge_int b 8); [lia|].
  destruct (PyNum.ge_int b 4); lia.
Qed.

(** C7. [ram_score] is monotonically non-decreasing in the gibibytes, and
    at 0, 4, 8 and 16 it is 4, 8, 13 and 20. *)
Theorem ram_score_monotone_and_boundaries :
  (forall a b : pynum, PyNum.le a b = true -> ram_score a <= ram_score b) /\
  ram_score (PyNum.of_Z 0) = 4 /\
  ram_score (PyNum.of_Z 4) = 8 /\
  ram_score (PyNum.of_Z 8) = 13 /\
  ram_score (PyNum.of_Z 16) = 20.
Proof.
  split; [exact ram_score_mono|].
  repeat split; reflexivity.
Qed.

Lemma ram_score_monotone_and_boundaries_witness :
  PyNum.le (Fin (Qmake 79 10)) (Fin (Qmake 156 10)) = true /\
  ram_score (Fin (Qmake 79 10)) <= ram_score (Fin (Qmake 156 10)).
Proof.
  split; [reflexivity|].
  apply (proj1 ram_score_monotone_and_boundaries); reflexivity.
Defined.

(** [ram_score] takes no other value than 4, 8, 13 and 20. *)
Lemma ram_score_values (gb : pynum) :
  In (ram_score gb) [4; 8; 13; 20].
Proof.
  unfold ram_score.
  destruct (PyNum.ge_int gb 16); [simpl; auto|].
  destruct (PyNum.ge_int gb 8); [simpl; auto|].
  destruct (PyNum.ge_int gb 4); simpl; auto.
Qed.

(** ** Scoring engine: disk *)

Lemma disk_score_values (status : string) :
  disk_score "Healthy" = 20 /\ disk_score "Failing" = 8 /\
  (disk_score status = 20 \/ disk_score status = 8).
Proof.
  repeat split; unfold disk_score.
  destruct (status =? "Healthy")%string; auto.
Qed.

(** ** Substring search *)

Section Substrings.

Import PyStr.

Lemma startswith_app (k post : string) : startswith k (k ++ post) = true.
Proof.
  induction k as [|c k IH]; simpl; [reflexivity|].
  now rewrite Ascii.eqb_refl, IH.
Qed.

Lemma startswith_inv (k s : string) :
  startswith k s = true -> exists post, s = k ++ post.
Proof.
  revert s. induction k as [|c k IH]; intros s H.
  - now exists s.
  - destruct s as [|d s]; simpl in H; [discriminate|].
    apply andb_true_iff in H. destruct H as [Hc Hk].
    apply Ascii.eqb_eq in Hc. subst d.
    destruct (IH _ Hk) as [post ->]. now exists post.
Qed.

Lemma contains_unfold (k s : string) :
  contains k s =
  (startswith k s ||
   match s with EmptyString => false | String _ s' => contains k s' end)%bool.
Proof. destruct s; reflexivity. Qed.

Lemma contains_app (k pre post : string) :
  contains k (pre ++ k ++ post) = true.
Proof.
  induction pre as [|c pre IH].
  - simpl append. rewrite contains_unfold, startswith_app. reflexivity.
  - simpl append. rewrite contains_unfold, IH. apply orb_true_r.
Qed.

Lemma contains_occurs (k s : string) :
  contains k s = true <-> occurs k s.
Proof.
  split.
  - induction s as [|c s IH]; rewrite contains_unfold; intros H;
      apply orb_true_iff in H; destruct H as [H|H].
    + destruct (startswith_inv _ _ H) as [post E]. exists "", post. exact E.
    + discriminate.
    + destruct (startswith_inv _ _ H) as [post E]. exists "", post. exact E.
    + destruct (IH H) as (pre & post & E).
      exists (String c pre), post. simpl. now rewrite E.
  - intros (pre & post & ->). apply contains_app.
Qed.

Lemma lower_app (a b : string) : lower (a ++ b) = lower a ++ lower b.
Proof.
  induction a as [|c a IH]; simpl; [reflexivity|]. now rewrite IH.
Qed.

Lemma lower_split (s a b : string) :
  lower s = a ++ b ->
  exists s1 s2, s = s1 ++ s2 /\ lower s1 = a /\ lower s2 = b.
Proof.
  revert s. induction a as [|c a IH]; intros s H.
  - exists "", s. auto.
  - destruct s as [|d s]; simpl in H; [discriminate|].
    injection H as Hc Hs.
    destruct (IH _ Hs) as (s1 & s2 & -> & H1 & H2).
    exists (String d s1), s2. simpl. rewrite Hc, H1. auto.
Qed.

(** The test [k in s.lower()] of the program decides the occurrence of the
    lower-case keyword [k] in [s] in any letter case. *)
Lemma contains_lower_iff (k s : string) :
  lower k = k ->
  contains k (lower s) = true <-> occurs_any_case k s.
Proof.
  intros Hk. rewrite contains_occurs. split.
  - intros (p & q & E).
    destruct (lower_split _ _ _ E) as (pre & rest & -> & Hp & Hr).
    destruct (lower_split _ _ _ Hr) as (w & post & -> & Hw & Hq).
    exists pre, w, post. split; [reflexivity|].
    unfold same_any_case. now rewrite Hk.
  - intros (pre & w & post & -> & Hw).
    unfold same_any_case in Hw. rewrite Hk in Hw.
    exists (lower pre), (lower post).
    now rewrite !lower_app, Hw.
Qed.

Lemma truthy_iff (s : string) : truthy s = true <-> s <> "".
Proof.
  destruct s; simpl; split; intros H; congruence.
Qed.

End Substrings.

(** ** Scoring engine: GPU *)

(** The two components of [gpu_score]: each is at least 3 and at most 10. *)
Lemma gpu_score_bounds (gpu renderer : string) :
  6 <= gpu_score gpu renderer <= 20.
Proof.
  unfold gpu_score.
  destruct (PyStr.contains "nvidia" (PyStr.lower gpu)
            || PyStr.contains "amd" (PyStr.lower gpu))%bool;
    [|destruct (PyStr.contains "intel" (PyStr.lower gpu))];
    destruct (PyStr.truthy renderer
              && negb (PyStr.contains "llvmpipe" (PyStr.lower renderer)))%bool;
    simpl; lia.
Qed.

Lemma gpu_score_nvidia (gpu renderer : string) :
  PyStr.occurs_any_case "nvidia" gpu ->
  renderer <> "" ->
  ~ PyStr.occurs_any_case "llvmpipe" renderer ->
  gpu_score gpu renderer = 20.
Proof.
  intros Hn Hr Hl.
  apply (contains_lower_iff "nvidia" gpu eq_refl) in Hn.
  apply truthy_iff in Hr.
  assert (PyStr.contains "llvmpipe" (PyStr.lower renderer) = false) as Hl'.
  { destruct (PyStr.contains "llvmpipe" (PyStr.lower renderer)) eqn:E; [|reflexivity].
    exfalso. apply Hl. now apply (contains_lower_iff "llvmpipe" renderer eq_refl). }
  unfold gpu_score. rewrite Hn, Hr, Hl'. reflexivity.
Qed.

(** C3, as the code has it. For every adapter description and renderer
    string [gpu_score] lies in [3, 25]; a description containing "nvidia"
    in any letter case, with a non-empty renderer that does not contain
    "llvmpipe" in any letter case, scores exactly 20 (10 + 10, below the
    cap of 25). *)
Theorem gpu_score_range_and_nvidia (gpu renderer : string) :
  3 <= gpu_score gpu renderer <= 25 /\
  (PyStr.occurs_any_case "nvidia" gpu ->
   renderer <> "" ->
   ~ PyStr.occurs_any_case "llvmpipe" renderer ->
   gpu_score gpu renderer = 20).
Proof.
  split.
  - pose proof (gpu_score_bounds gpu renderer). lia.
  - apply gpu_score_nvidia.
Qed.

Lemma nvidia_adapter_occurs : PyStr.occurs_any_case "nvidia" nvidia_adapter.
Proof.
  exists "01:00.0 VGA compatible controller: ", "NVIDIA",
         " Corporation GA104 [GeForce RTX 3070]".
  split; reflexivity.
Qed.

Lemma nvidia_renderer_not_software :
  ~ PyStr.occurs_any_case "llvmpipe" nvidia_renderer.
Proof.
  intros H. apply (contains_lower_iff "llvmpipe" nvidia_renderer eq_refl) in H.
  vm_compute in H. discriminate.
Qed.

Lemma gpu_score_range_and_nvidia_witness :
  gpu_score nvidia_adapter nvidia_renderer = 20.
Proof.
  apply (proj2 (gpu_score_range_and_nvidia nvidia_adapter nvidia_renderer)).
  - exact nvidia_adapter_occurs.
  - discriminate.
  - exact nvidia_renderer_not_software.
Defined.

(** C3, as the specification states it, fails: an NVIDIA adapter with a
    hardware renderer scores 20, not 25. *)
Lemma gpu_score_nvidia_is_not_25 :
  PyStr.occurs_any_case "nvidia" nvidia_adapter /\
  nvidia_renderer <> "" /\
  ~ PyStr.occurs_any_case "llvmpipe" nvidia_renderer /\
  gpu_score nvidia_adapter nvidia_renderer = 20 /\
  gpu_score nvidia_adapter nvidia_renderer <> 25.
Proof.
  split; [exact nvidia_adapter_occurs|].
  split; [discriminate|].
  split; [exact nvidia_renderer_not_software|].
  split; [reflexivity | discriminate].
Qed.

(** The renderer test ignores letter case: a renderer that spells the
    software rasterizer in capitals is still counted as software. *)
Example gpu_score_software_renderer_any_case :
  gpu_score nvidia_adapter "OpenGL renderer string: LLVMPIPE (LLVM 15.0.7, 256 bits)" = 13.
Proof. reflexivity. Qed.

(** C10. For every adapter description and renderer string [gpu_score] is
    at least 6: each of its two components contributes at least 3, so the
    value 3 is never returned. *)
Theorem gpu_score_at_least_6 (gpu renderer : string) :
  6 <= gpu_score gpu renderer /\ gpu_score gpu renderer <> 3.
Proof.
  pose proof (gpu_score_bounds gpu renderer). split; lia.
Qed.

(** The bound 6 is attained: an unknown adapter without a renderer. *)
Example gpu_score_minimum : gpu_score "" "" = 6.
Proof. reflexivity. Qed.

(** ** Suggestion engine *)

(** C1. For every four scores, [ai_suggestions] returns the single fallback
    tip if and only if cpu >= 12, gpu >= 12, ram >= 13 and disk >= 15 all
    hold; otherwise it returns exactly one tip per failing threshold, in the
    order CPU, GPU, RAM, Disk; and the result is never empty. *)
Theorem ai_suggestions_fallback_iff_all_meet (cpu gpu ram disk : Z) :
  (ai_suggestions cpu gpu ram disk = [tip_balanced] <-> all_meet cpu gpu ram disk) /\
  (~ all_meet cpu gpu ram disk ->
   ai_suggestions cpu gpu ram disk = failing_tips (scores cpu gpu ram disk)) /\
  ai_suggestions cpu gpu ram disk <> [].
Proof.
  unfold ai_suggestions, failing_tips, all_meet. cbn [scores threshold filter map].
  destruct (Z.ltb_spec cpu 12), (Z.ltb_spec gpu 12),
           (Z.ltb_spec ram 13), (Z.ltb_spec disk 15);
    cbn [app map tip_for];
    (split; [split; [intros E; try discriminate E; lia | intros; try lia; reflexivity]
            | split; [intros N; try reflexivity; exfalso; apply N; lia
                     | discriminate]]).
Qed.

Lemma ai_suggestions_fallback_iff_all_meet_witness :
  ai_suggestions 20 0 20 0 = [tip_gpu; tip_disk].
Proof.
  apply (proj1 (proj2 (ai_suggestions_fallback_iff_all_meet 20 0 20 0))).
  unfold all_meet. lia.
Defined.

(** The number of tips is the number of failing thresholds, or one. *)
Lemma ai_suggestions_length (cpu gpu ram disk : Z) :
  List.length (ai_suggestions cpu gpu ram disk) =
  Nat.max 1 (List.length (filter (fun s => scores cpu gpu ram disk s <? threshold s)
                            [CPU; GPU; RAM; Disk])).
Proof.
  unfold ai_suggestions. cbn [scores threshold filter].
  destruct (cpu <? 12), (gpu <? 12), (ram <? 13), (disk <? 15); reflexivity.
Qed.

(** ** The effect monad *)

Section Effects.

Variable w : World.

Lemma bind_ret {A B : Type} (a : A) (k : A -> M B) (i : list string) :
  bind (ret a) k i = k a i.
Proof.
  unfold bind, ret. destruct (k a i) as [[r i'] t]. reflexivity.
Qed.

Lemma bind_emit {B : Type} (e : event) (k : unit -> M B) (i : list string) :
  bind (emit e) k i =
  match k tt i with (r, i', t) => (r, i', e :: t) end.
Proof. reflexivity. Qed.

Lemma bind_run {B : Type} (cmd : string) (k : string -> M B) (i : list string) :
  bind (run w cmd) k i =
  match k (run_output w cmd) i with (r, i', t) => (r, i', Run cmd :: t) end.
Proof.
  unfold run, bind, emit, ret.
  destruct (k (run_output w cmd) i) as [[r i'] t]. reflexivity.
Qed.

Lemma bind_raise {A B : Type} (e : exn) (k : A -> M B) (i : list string) :
  bind (raise e) k i = (Raise e, i, []).
Proof. reflexivity. Qed.

End Effects.

(** ** Disk collector *)

Section DiskHealth.

Variable w : World.

Lemma disk_health_loop_cons (d : string) (ds i : list string) :
  disk_health_loop w (d :: ds) i =
  if smart_failed w d
  then (Ret "Failing", i, [Run (smart_cmd d)])
  else match disk_health_loop w ds i with
       | (r, i', t) => (r, i', Run (smart_cmd d) :: t)
       end.
Proof.
  change (disk_health_loop w (d :: ds) i)
    with (bind (run w (smart_cmd d))
               (fun out => if PyStr.contains "FAILED" out
                           then ret "Failing"
                           else disk_health_loop w ds) i).
  rewrite bind_run. unfold smart_failed.
  destruct (PyStr.contains "FAILED" (run_output w (smart_cmd d))); reflexivity.
Qed.

(** Devices that pass are all queried and the loop goes on after them. *)
Lemma disk_health_loop_passing (pre rest i : list string) :
  Forall (fun d => smart_failed w d = false) pre ->
  disk_health_loop w (pre ++ rest) i =
  match disk_health_loop w rest i with
  | (r, i', t) => (r, i', (smart_queries pre ++ t)%list)
  end.
Proof.
  induction 1 as [|d pre Hd Hpre IH].
  - simpl. destruct (disk_health_loop w rest i) as [[r i'] t]. reflexivity.
  - change ((d :: pre) ++ rest)%list with (d :: (pre ++ rest))%list.
    rewrite disk_health_loop_cons, Hd, IH.
    destruct (disk_health_loop w rest i) as [[r i'] t]. reflexivity.
Qed.

Lemma disk_health_loop_first_failing (pre : list string) (d : string)
      (post i : list string) :
  Forall (fun x => smart_failed w x = false) pre ->
  smart_failed w d = true ->
  disk_health_loop w (pre ++ d :: post) i =
  (Ret "Failing", i, smart_queries (pre ++ [d])).
Proof.
  intros Hpre Hd.
  rewrite (disk_health_loop_passing pre (d :: post) i Hpre).
  rewrite disk_health_loop_cons, Hd.
  unfold smart_queries. rewrite map_app. reflexivity.
Qed.

Lemma disk_health_loop_all_passing (disks i : list string) :
  Forall (fun x => smart_failed w x = false) disks ->
  disk_health_loop w disks i = (Ret "Healthy", i, smart_queries disks).
Proof.
  intros H.
  rewrite <- (app_nil_r disks) at 1.
  rewrite (disk_health_loop_passing disks [] i H).
  simpl. now rewrite app_nil_r.
Qed.

(** Every list splits at its first failing device, if it has one. *)
Lemma first_failing_split (disks : list string) :
  Forall (fun x => smart_failed w x = false) disks \/
  exists pre d post,
    disks = (pre ++ d :: post)%list /\
    Forall (fun x => smart_failed w x = false) pre /\
    smart_failed w d = true.
Proof.
  induction disks as [|x disks IH]; [left; constructor|].
  destruct (smart_failed w x) eqn:Hx.
  - right. exists [], x, disks. repeat split; [constructor | exact Hx].
  - destruct IH as [IH | (pre & d & post & -> & Hpre & Hd)].
    + left. now constructor.
    + right. exists (x :: pre), d, post. repeat split; [now constructor | exact Hd].
Qed.

End DiskHealth.

(** C8. For every list of block devices with their SMART outputs, the health
    check returns "Failing" exactly when the output of some device contains
    FAILED, and it then stops at the first such device (the devices after it
    are not queried); it returns "Healthy" when no device reports FAILED,
    the empty list included.  [disk_health] runs this check on the lines of
    the [lsblk] output. *)
Theorem disk_health_failing_iff_some_failed (w : World) (disks i : list string) :
  (result_of (disk_health_loop w disks i) = Ret "Failing" <->
   exists d, In d disks /\ PyStr.occurs "FAILED" (run_output w (smart_cmd d))) /\
  (forall pre d post,
      disks = (pre ++ d :: post)%list ->
      Forall (fun x => smart_failed w x = false) pre ->
      smart_failed w d = true ->
      disk_health_loop w disks i = (Ret "Failing", i, smart_queries (pre ++ [d]))) /\
  ((forall d, In d disks -> ~ PyStr.occurs "FAILED" (run_output w (smart_cmd d))) ->
   disk_health_loop w disks i = (Ret "Healthy", i, smart_queries disks)) /\
  disk_health_loop w [] i = (Ret "Healthy", i, []) /\
  disk_health w i =
  match disk_health_loop w (PyText.splitlines (run_output w "lsblk -nd -o NAME")) i with
  | (r, i', t) => (r, i', Run "lsblk -nd -o NAME" :: t)
  end.
Proof.
  split; [|split; [|split; [|split]]].
  - destruct (first_failing_split w disks) as [Hall | (pre & d & post & -> & Hpre & Hd)].
    + rewrite (disk_health_loop_all_passing w disks i Hall). simpl. split.
      * intros E. discriminate E.
      * intros (d & Hin & Hocc). exfalso.
        rewrite Forall_forall in Hall. specialize (Hall d Hin).
        apply contains_occurs in Hocc. unfold smart_failed in Hall. congruence.
    + rewrite (disk_health_loop_first_failing w pre d post i Hpre Hd). simpl. split.
      * intros _. exists d. split.
        -- apply in_or_app. right. now left.
        -- now apply contains_occurs.
      * reflexivity.
  - intros pre d post -> Hpre Hd.
    now apply disk_health_loop_first_failing.
  - intros Hnone. apply disk_health_loop_all_passing.
    apply Forall_forall. intros d Hin. unfold smart_failed.
    destruct (PyStr.contains "FAILED" (run_output w (smart_cmd d))) eqn:E; [|reflexivity].
    exfalso. apply (Hnone d Hin). now apply contains_occurs.
  - reflexivity.
  - unfold disk_health. now rewrite bind_run.
Qed.

Lemma disk_health_failing_iff_some_failed_witness :
  disk_health_loop failing_disk_world ["sda"; "sdb"; "nvme0n1"] [] =
  (Ret "Failing", [], [Run "smartctl -H /dev/sda"; Run "smartctl -H /dev/sdb"]).
Proof.
  apply (proj1 (proj2 (disk_health_failing_iff_some_failed
                         failing_disk_world ["sda"; "sdb"; "nvme0n1"] []))
           ["sda"] "sdb" ["nvme0n1"]).
  - reflexivity.
  - constructor; [reflexivity | constructor].
  - reflexivity.
Defined.

(** The whole collector on that machine: the third drive is never queried. *)
Example disk_health_stops_at_sdb :
  disk_health failing_disk_world [] =
  (Ret "Failing", [],
   [Run "lsblk -nd -o NAME"; Run "smartctl -H /dev/sda"; Run "smartctl -H /dev/sdb"]).
Proof. reflexivity. Qed.

(** The status is one of the two texts, and the collector never raises. *)
Lemma disk_health_loop_total (w : World) (disks i : list string) :
  exists status t,
    disk_health_loop w disks i = (Ret status, i, t) /\
    (status = "Healthy" \/ status = "Failing").
Proof.
  destruct (first_failing_split w disks) as [Hall | (pre & d & post & -> & Hpre & Hd)].
  - exists "Healthy", (smart_queries disks). split; [|now left].
    now apply disk_health_loop_all_passing.
  - exists "Failing", (smart_queries (pre ++ [d])). split; [|now right].
    now apply disk_health_loop_first_failing.
Qed.

(** ** Environment preparer *)

Section Prepare.

Variable w : World.

Lemma bind_det {A B : Type} (m : M A) (k : A -> M B) (i i' : list string)
      (a : A) (t : list event) :
  m i = (Ret a, i', t) ->
  bind m k i = match k a i' with (r, i'', t') => (r, i'', (t ++ t')%list) end.
Proof. intros H. unfold bind. now rewrite H. Qed.

Lemma for_each_emit {A : Type} (f : A -> event) (l : list A) (i : list string) :
  for_each l (fun x => emit (f x)) i = (Ret tt, i, map f l).
Proof.
  induction l as [|x l IH]; [reflexivity|].
  cbn [for_each]. rewrite bind_emit, IH. reflexivity.
Qed.

Lemma installs_missing_lines (m : PyDict.dict string) :
  installs (missing_lines m) = [].
Proof. induction m as [|cp m IH]; [reflexivity | exact IH]. Qed.

Lemma installs_app (t1 t2 : list event) :
  installs (t1 ++ t2) = (installs t1 ++ installs t2)%list.
Proof. apply filter_app. Qed.

(** What [prepare_environment] does, by cases on the missing tools, the
    answer to the prompt and the effective uid. *)
Lemma prepare_environment_none (tests i : list string) :
  missing_tools w tests = [] ->
  prepare_environment w tests i = (Ret true, i, []).
Proof. intros H. unfold prepare_environment. now rewrite H. Qed.

Lemma prepare_environment_some (tests : list string) (line : string)
      (rest : list string) :
  missing_tools w tests <> [] ->
  prepare_environment w tests (line :: rest) =
  let missing := missing_tools w tests in
  let before :=
    (Print "⚠️ Missing tools for selected tests:" :: missing_lines missing
       ++ [Prompt "Install missing tools now? [y/N]: "])%list in
  if PyStr.startswith "y" (PyStr.lower line)
  then if geteuid w =? 0
       then (Ret true, rest,
             (before ++ [AptInstall (py_set (PyDict.values missing))])%list)
       else (Exit 1, rest, (before ++ [Print "❌ Please run with sudo"])%list)
  else (Ret false, rest, (before ++ [Print "ℹ️ Skipping related tests."])%list).
Proof.
  intros Hne. unfold prepare_environment.
  destruct (missing_tools w tests) as [|cp m]; [congruence|].
  rewrite bind_emit.
  rewrite (bind_det _ _ _ _ _ _
             (for_each_emit (fun cp => PrintMissing (fst cp) (snd cp)) (cp :: m) _)).
  unfold ask, require_root, bind, input, ret, emit, sys_exit.
  cbv zeta. fold (missing_lines (cp :: m)).
  destruct (PyStr.startswith "y" (PyStr.lower line));
    [destruct (geteuid w =? 0)|]; cbn [negb app];
    rewrite <- ?app_assoc; reflexivity.
Qed.

End Prepare.

(** C9, as the code has it. For every selection and world: if no tool is
    missing, [prepare_environment] returns true and never invokes the
    installer; if tools are missing and the installation is not authorized,
    it returns false and never invokes the installer; if it is authorized
    and the process runs as root, it invokes the installer once, with the
    duplicate-free set of the packages of the missing tools, and returns
    true although the tools are still missing (nothing is verified again);
    if it is authorized and the process does not run as root, it exits with
    status 1 and never invokes the installer. *)
Theorem prepare_environment_installs_only_as_root (w : World) (tests i : list string) :
  (missing_tools w tests = [] ->
   result_of (prepare_environment w tests i) = Ret true /\
   installs (trace_of (prepare_environment w tests i)) = []) /\
  (forall line rest,
      i = line :: rest ->
      missing_tools w tests <> [] ->
      PyStr.startswith "y" (PyStr.lower line) = false ->
      result_of (prepare_environment w tests i) = Ret false /\
      installs (trace_of (prepare_environment w tests i)) = []) /\
  (forall line rest,
      i = line :: rest ->
      missing_tools w tests <> [] ->
      PyStr.startswith "y" (PyStr.lower line) = true ->
      geteuid w = 0 ->
      let pkgs := py_set (PyDict.values (missing_tools w tests)) in
      result_of (prepare_environment w tests i) = Ret true /\
      installs (trace_of (prepare_environment w tests i)) = [AptInstall pkgs] /\
      NoDup pkgs /\
      (forall p, In p pkgs <-> exists c, In (c, p) (missing_tools w tests))) /\
  (forall line rest,
      i = line :: rest ->
      missing_tools w tests <> [] ->
      PyStr.startswith "y" (PyStr.lower line) = true ->
      geteuid w <> 0 ->
      result_of (prepare_environment w tests i) = Exit 1 /\
      installs (trace_of (prepare_environment w tests i)) = []).
Proof.
  split; [|split; [|split]].
  - intros H. rewrite (prepare_environment_none w tests i H). split; reflexivity.
  - intros line rest -> Hne Hno.
    rewrite (prepare_environment_some w tests line rest Hne). cbv zeta.
    rewrite Hno. unfold result_of, trace_of. cbn [fst snd].
    split; [reflexivity|].
    rewrite installs_app. cbn [app].
    change (installs (Print "⚠️ Missing tools for selected tests:" :: ?l))
      with (installs l).
    rewrite installs_app, installs_missing_lines. reflexivity.
  - intros line rest -> Hne Hyes Hroot pkgs.
    rewrite (prepare_environment_some w tests line rest Hne). cbv zeta.
    rewrite Hyes, Hroot. unfold result_of, trace_of. cbn [fst snd Z.eqb].
    split; [reflexivity|]. split; [|split].
    + rewrite installs_app. cbn [app].
      change (installs (Print "⚠️ Missing tools for selected tests:" :: ?l))
        with (installs l).
      rewrite installs_app, installs_missing_lines. reflexivity.
    + apply NoDup_nodup.
    + intros p. unfold pkgs, py_set, PyDict.values.
      rewrite nodup_In, in_map_iff. split.
      * intros ([c q] & Hq & Hin). simpl in Hq. subst q. now exists c.
      * intros (c & Hin). now exists (c, p).
  - intros line rest -> Hne Hyes Hroot.
    rewrite (prepare_environment_some w tests line rest Hne). cbv zeta.
    rewrite Hyes.
    destruct (geteuid w =? 0) eqn:E; [apply Z.eqb_eq in E; contradiction|].
    unfold result_of, trace_of. cbn [fst snd].
    split; [reflexivity|].
    rewrite installs_app. cbn [app].
    change (installs (Print "⚠️ Missing tools for selected tests:" :: ?l))
      with (installs l).
    rewrite installs_app, installs_missing_lines. reflexivity.
Qed.

Lemma prepare_environment_installs_only_as_root_witness :
  result_of (prepare_environment bare_root_world ["cpu"; "disk"] ["Yes"]) = Ret true /\
  installs (trace_of (prepare_environment bare_root_world ["cpu"; "disk"] ["Yes"])) =
  [AptInstall ["util-linux"; "smartmontools"]].
Proof.
  destruct (proj1 (proj2 (proj2 (prepare_environment_installs_only_as_root
                                   bare_root_world ["cpu"; "disk"] ["Yes"])))
              "Yes" [] eq_refl ltac:(discriminate) eq_refl eq_refl)
    as (Hres & Hinst & _).
  split; [exact Hres | exact Hinst].
Defined.

(** C9, as the specification states it, fails: with a tool missing and the
    installation authorized, an ordinary user's run neither invokes the
    installer nor returns true; it exits with status 1. *)
Lemma prepare_environment_authorized_not_root_exits :
  missing_tools no_lscpu_world ["cpu"] = [("lscpu", "util-linux")] /\
  result_of (ask "Install missing tools now? [y/N]: " ["y"]) = Ret true /\
  prepare_environment no_lscpu_world ["cpu"] ["y"] =
  (Exit 1, [],
   [Print "⚠️ Missing tools for selected tests:";
    PrintMissing "lscpu" "util-linux";
    Prompt "Install missing tools now? [y/N]: ";
    Print "❌ Please run with sudo"]) /\
  result_of (prepare_environment no_lscpu_world ["cpu"] ["y"]) <> Ret true /\
  installs (trace_of (prepare_environment no_lscpu_world ["cpu"] ["y"])) = [].
Proof.
  repeat split; try reflexivity. discriminate.
Qed.

(** The dictionary of needed tools keeps one entry per tool, however often a
    test is listed. *)
Example needed_tools_repeated_test :
  needed_tools ["disk"; "cpu"; "disk"] =
  [("lsblk", "util-linux"); ("smartctl", "smartmontools"); ("lscpu", "util-linux")].
Proof. reflexivity. Qed.

(** ** CPU collector *)

Section Collectors.

Variable w : World.

Lemma bind_raises {A B : Type} (m : M A) (k : A -> M B) (i i' : list string)
      (e : exn) (t : list event) :
  m i = (Raise e, i', t) -> bind m k i = (Raise e, i', t).
Proof. intros H. unfold bind. now rewrite H. Qed.

(** Without a colon in the model-name output there is no [[1]] to take. *)
Lemma cpu_info_no_model_field (i : list string) :
  index1 (PyText.split_once ":" (run_output w "lscpu | grep 'Model name'")) = None ->
  cpu_info w i = (Raise IndexError, i, [Run "lscpu | grep 'Model name'"]).
Proof.
  intros H. unfold cpu_info. rewrite bind_run, H. reflexivity.
Qed.

(** Without any token in the core-count output there is no [[-1]] to take. *)
Lemma cpu_info_no_cores_token (i : list string) :
  index1 (PyText.split_once ":" (run_output w "lscpu | grep 'Model name'")) <> None ->
  index_last (PyText.split (run_output w "lscpu | grep '^CPU(s):'")) = None ->
  cpu_info w i =
  (Raise IndexError, i,
   [Run "lscpu | grep 'Model name'"; Run "lscpu | grep '^CPU(s):'"]).
Proof.
  intros Hm Hc. unfold cpu_info. rewrite bind_run.
  destruct (index1 (PyText.split_once ":" (run_output w "lscpu | grep 'Model name'")))
    as [field|]; [|congruence].
  cbn [or_raise]. rewrite bind_ret. cbv zeta. rewrite bind_run, Hc. reflexivity.
Qed.

(** An exception of the CPU collector is not caught by [main]: the run ends
    with it, right after the collector's own commands. *)
Lemma main_from_cpu_raises (tests i i1 i2 : list string) (ready : bool)
      (t1 t2 : list event) (e : exn) :
  prepare_environment w tests i = (Ret ready, i1, t1) ->
  str_in "cpu" tests = true ->
  cpu_info w i1 = (Raise e, i2, t2) ->
  main_from w tests i = (Raise e, i2, (t1 ++ t2)%list).
Proof.
  intros Hp Hsel Hc. unfold main_from.
  rewrite (bind_det _ _ _ _ _ _ Hp). cbv zeta. rewrite Hsel.
  rewrite (bind_raises _ _ _ _ _ _
             (bind_raises _ _ _ _ _ _ Hc)).
  reflexivity.
Qed.

End Collectors.

(** C4, as the code has it. For every run in which the CPU test is selected:
    when the model-name line is absent from the [lscpu] output, or the
    core-count line is, the CPU collector raises [IndexError] and [main]
    does not catch it: the run ends there with the exception, after the
    collector's own commands, and no subsystem is reported (no report line,
    total or suggestion is printed). *)
Theorem main_from_cpu_field_absent_aborts_run
        (w : World) (tests i i1 : list string) (ready : bool) (t1 : list event) :
  prepare_environment w tests i = (Ret ready, i1, t1) ->
  str_in "cpu" tests = true ->
  (run_output w "lscpu | grep 'Model name'" = "" ->
   main_from w tests i =
   (Raise IndexError, i1, (t1 ++ [Run "lscpu | grep 'Model name'"])%list)) /\
  (index1 (PyText.split_once ":" (run_output w "lscpu | grep 'Model name'")) <> None ->
   run_output w "lscpu | grep '^CPU(s):'" = "" ->
   main_from w tests i =
   (Raise IndexError, i1,
    (t1 ++ [Run "lscpu | grep 'Model name'"; Run "lscpu | grep '^CPU(s):'"])%list)).
Proof.
  intros Hp Hsel. split.
  - intros Hm. apply (main_from_cpu_raises w tests i i1 i1 ready t1 _ _ Hp Hsel).
    apply cpu_info_no_model_field. now rewrite Hm.
  - intros Hm Hc. apply (main_from_cpu_raises w tests i i1 i1 ready t1 _ _ Hp Hsel).
    apply cpu_info_no_cores_token; [exact Hm | now rewrite Hc].
Qed.

Lemma main_from_cpu_field_absent_aborts_run_witness :
  main_from no_model_world ["cpu"; "gpu"; "ram"; "disk"] [] =
  (Raise IndexError, [], [Run "lscpu | grep 'Model name'"]).
Proof.
  apply (proj1 (main_from_cpu_field_absent_aborts_run
                  no_model_world ["cpu"; "gpu"; "ram"; "disk"] [] [] true []
                  eq_refl eq_refl)).
  reflexivity.
Defined.

(** C4, as the specification states it, fails: with the full system selected
    on a machine whose [lscpu] prints no model name, the run ends with an
    uncaught [IndexError] and reports nothing, although the memory could
    have been read. *)
Lemma main_aborts_on_missing_cpu_model :
  main no_model_world ["5"] =
  (Raise IndexError, [],
   [Print "🐧 sys-doctor v1.1";
    Print "Smart Linux System Health Analyzer";
    Print "---------------------------------------------";
    Print "Select tests to run:";
    Print "1) CPU"; Print "2) GPU"; Print "3) RAM";
    Print "4) Disk (SMART)"; Print "5) Full system";
    Prompt "Your choice [1-5]: ";
    Run "lscpu | grep 'Model name'"]) /\
  ram_info no_model_world [] = (Ret (Fin (Qmake 160 10)), [], [Run "grep MemTotal /proc/meminfo"]) /\
  filter is_report (trace_of (main no_model_world ["5"])) = [].
Proof.
  repeat split; reflexivity.
Qed.

(** ** Main pipeline *)

(** C2, on the code. With the CPU and RAM tests selected on a machine with
    eight cores at 3600 MHz (score 20) and 16.0 GiB (score 20), the total is
    40, but the suggestions are the GPU tip and the disk tip, not the
    fallback tip: the scores of the two subsystems that were not tested stay
    at their initial 0 and fall below the thresholds. *)
Theorem main_from_cpu_ram_suggests_untested :
  main_from example_world ["cpu"; "ram"] [] =
  (Ret tt, [],
   [Run "lscpu | grep 'Model name'";
    Run "lscpu | grep '^CPU(s):'";
    Run "lscpu | grep 'max MHz'";
    Run "grep MemTotal /proc/meminfo";
    Print "🧾 RESULTS";
    Print "------------------------------";
    PrintLine (CpuLine "Example CPU" 20);
    PrintLine (RamLine (Fin (Qmake 160 10)) 20);
    PrintTotal 40;
    Print "AI SUGGESTIONS:";
    PrintTip tip_gpu;
    PrintTip tip_disk]) /\
  ai_suggestions 20 0 20 0 <> [tip_balanced].
Proof.
  split; [reflexivity | discriminate].
Qed.

(** The same through the menu: the choice "1" tests the processor alone and
    the run advises on the graphics adapter, the memory and the disk. *)
Example main_cpu_only_suggests_untested :
  filter is_report (trace_of (main example_world ["1"])) =
  [PrintLine (CpuLine "Example CPU" 20);
   PrintTotal 20;
   PrintTip tip_gpu;
   PrintTip tip_ram;
   PrintTip tip_disk].
Proof. reflexivity. Qed.

(** C5, on the code. With the GPU test chosen, [glxinfo] not installed and
    the installation declined, [prepare_environment] returns false and
    announces that the related tests are skipped; the GPU collector is run
    all the same and its score is reported and added to the total. *)
Theorem main_runs_gpu_collector_when_not_ready :
  result_of (prepare_environment no_glxinfo_world ["gpu"] ["n"]) = Ret false /\
  main no_glxinfo_world ["2"; "n"] =
  (Ret tt, [],
   [Print "🐧 sys-doctor v1.1";
    Print "Smart Linux System Health Analyzer";
    Print "---------------------------------------------";
    Print "Select tests to run:";
    Print "1) CPU"; Print "2) GPU"; Print "3) RAM";
    Print "4) Disk (SMART)"; Print "5) Full system";
    Prompt "Your choice [1-5]: ";
    Print "⚠️ Missing tools for selected tests:";
    PrintMissing "glxinfo" "mesa-utils";
    Prompt "Install missing tools now? [y/N]: ";
    Print "ℹ️ Skipping related tests.";
    Run "lspci | egrep -i 'vga|3d|display'";
    Run "glxinfo 2>/dev/null | grep 'OpenGL renderer'";
    Print "🧾 RESULTS";
    Print "------------------------------";
    PrintLine (GpuLine 10);
    PrintTotal 10;
    Print "AI SUGGESTIONS:";
    PrintTip tip_cpu;
    PrintTip tip_gpu;
    PrintTip tip_ram;
    PrintTip tip_disk]).
Proof.
  split; reflexivity.
Qed.

(** The processor alike: without [lscpu] and with the installation declined,
    the CPU collector is still run; the shell's complaint has no number to
    parse and the run ends in the collector with a [ValueError]. *)
Example main_runs_cpu_collector_when_not_ready :
  result_of (prepare_environment no_lscpu_world ["cpu"] ["n"]) = Ret false /\
  main_from no_lscpu_world ["cpu"] ["n"] =
  (Raise ValueError, [],
   [Print "⚠️ Missing tools for selected tests:";
    PrintMissing "lscpu" "util-linux";
    Prompt "Install missing tools now? [y/N]: ";
    Print "ℹ️ Skipping related tests.";
    Run "lscpu | grep 'Model name'";
    Run "lscpu | grep '^CPU(s):'"]).
Proof.
  split; reflexivity.
Qed.

(** Only the disk test looks at [ready]: with it false the disk collector is
    not run although its own tools are installed, and the disk tip is given
    for a drive that was never queried. *)
Example main_skips_disk_when_not_ready :
  filter (fun e => match e with Run _ | PrintTotal _ | PrintTip _ => true | _ => false end)
         (trace_of (main no_glxinfo_world ["5"; "n"])) =
  [Run "lscpu | grep 'Model name'";
   Run "lscpu | grep '^CPU(s):'";
   Run "lscpu | grep 'max MHz'";
   Run "lspci | egrep -i 'vga|3d|display'";
   Run "glxinfo 2>/dev/null | grep 'OpenGL renderer'";
   Run "grep MemTotal /proc/meminfo";
   PrintTotal 50;
   PrintTip tip_gpu;
   PrintTip tip_disk].
Proof. reflexivity. Qed.

(** The events of a sequence start with the events of its first part. *)
Lemma bind_trace_prefix {A B : Type} (m : M A) (k : A -> M B) (i : list string) :
  exists t', trace_of (bind m k i) = (trace_of (m i) ++ t')%list.
Proof.
  unfold bind, trace_of.
  destruct (m i) as [[[a|e|c] i'] t]; cbn [snd].
  - destruct (k a i') as [[r i''] t']. now exists t'.
  - exists []. now rewrite app_nil_r.
  - exists []. now rewrite app_nil_r.
Qed.

(** For every run: whatever [prepare_environment] returned, a selected CPU
    test runs its collector. *)
Lemma main_from_always_runs_cpu_collector
      (w : World) (tests i i1 : list string) (ready : bool) (t1 : list event) :
  prepare_environment w tests i = (Ret ready, i1, t1) ->
  str_in "cpu" tests = true ->
  exists t',
    trace_of (main_from w tests i) =
    (t1 ++ Run "lscpu | grep 'Model name'" :: t')%list.
Proof.
  intros Hp Hsel. unfold main_from.
  rewrite (bind_det _ _ _ _ _ _ Hp). cbv zeta. rewrite Hsel.
  match goal with
  | |- context [bind (bind (cpu_info w) ?k1) ?k2 i1] =>
      destruct (bind_trace_prefix (bind (cpu_info w) k1) k2 i1) as [ta Ha];
      destruct (bind_trace_prefix (cpu_info w) k1 i1) as [tb Hb];
      destruct (bind (bind (cpu_info w) k1) k2 i1) as [[r i2] t] eqn:E
  end.
  unfold cpu_info in Hb at 2.
  match type of Hb with
  | context [bind (run w ?c) ?k i1] =>
      destruct (bind_trace_prefix (run w c) k i1) as [tc Hc]
  end.
  cbn [trace_of snd] in Ha |- *. rewrite Ha, Hb, Hc.
  exists ((tc ++ tb) ++ ta)%list.
  unfold run. rewrite bind_emit. cbn [ret trace_of snd app].
  now rewrite <- !app_assoc.
Qed.

(** ** No partial report *)

Section NoPartialReport.

Variable w : World.

Lemma quiet_app (t1 t2 : list event) : quiet t1 -> quiet t2 -> quiet (t1 ++ t2).
Proof. unfold quiet. intros H1 H2. now rewrite filter_app, H1, H2. Qed.

Lemma silent_ret {A : Type} (a : A) : silent (ret a).
Proof. intros i. reflexivity. Qed.

Lemma silent_or_raise {A : Type} (e : exn) (o : option A) : silent (or_raise e o).
Proof. intros i. destruct o; reflexivity. Qed.

Lemma silent_run (cmd : string) : silent (run w cmd).
Proof. intros i. reflexivity. Qed.

Lemma silent_bind {A B : Type} (m : M A) (k : A -> M B) :
  silent m -> (forall a, silent (k a)) -> silent (bind m k).
Proof.
  intros Hm Hk i. specialize (Hm i). unfold bind, trace_of in *.
  destruct (m i) as [[[a|e|c] i'] t]; cbn [snd] in *; try exact Hm.
  specialize (Hk a i'). unfold trace_of in Hk.
  destruct (k a i') as [[r i''] t']. cbn [snd] in *. now apply quiet_app.
Qed.

Lemma silent_aborts_silently {A : Type} (m : M A) : silent m -> aborts_silently m.
Proof. intros H i _. apply H. Qed.

Lemma aborts_silently_bind {A B : Type} (m : M A) (k : A -> M B) :
  silent m -> (forall a, aborts_silently (k a)) -> aborts_silently (bind m k).
Proof.
  intros Hm Hk i. specialize (Hm i). unfold bind, trace_of, result_of in *.
  destruct (m i) as [[[a|e|c] i'] t]; cbn [fst snd] in *; try (intros _; exact Hm).
  specialize (Hk a i'). unfold trace_of, result_of in Hk.
  destruct (k a i') as [[r i''] t']. cbn [fst snd] in *.
  intros Hab. apply quiet_app; [exact Hm | now apply Hk].
Qed.

Ltac silent_steps :=
  repeat first
    [ apply silent_ret | apply silent_or_raise | apply silent_run
    | apply silent_bind; [|intros ?] ].

Lemma silent_cpu_info : silent (cpu_info w).
Proof.
  unfold cpu_info. silent_steps.
  destruct (PyStr.truthy _); silent_steps.
Qed.

Lemma silent_gpu_info : silent (gpu_info w).
Proof. unfold gpu_info. silent_steps. Qed.

Lemma silent_ram_info : silent (ram_info w).
Proof. unfold ram_info. silent_steps. Qed.

Lemma silent_disk_health_loop (ds : list string) : silent (disk_health_loop w ds).
Proof.
  induction ds as [|d ds IH]; intros i; [reflexivity|].
  rewrite disk_health_loop_cons. destruct (smart_failed w d); [reflexivity|].
  specialize (IH i). unfold trace_of in *.
  destruct (disk_health_loop w ds i) as [[r i'] t']. exact IH.
Qed.

Lemma silent_disk_health : silent (disk_health w).
Proof.
  unfold disk_health. apply silent_bind; [apply silent_run|].
  intros out. apply silent_disk_health_loop.
Qed.

Lemma silent_emit (e : event) : is_report e = false -> silent (emit e).
Proof. intros H i. unfold quiet, emit, trace_of. cbn [snd filter]. now rewrite H. Qed.

Lemma silent_input (msg : string) : silent (input msg).
Proof. intros [|l i]; reflexivity. Qed.

Lemma silent_require_root : silent (require_root w).
Proof.
  unfold require_root. destruct (negb (geteuid w =? 0)); [|apply silent_ret].
  apply silent_bind; [now apply silent_emit | intros _ i; reflexivity].
Qed.

Lemma silent_prepare_environment (tests : list string) :
  silent (prepare_environment w tests).
Proof.
  unfold prepare_environment.
  destruct (missing_tools w tests) as [|cp m]; [apply silent_ret|].
  apply silent_bind; [now apply silent_emit | intros _].
  apply silent_bind.
  { intros i. rewrite for_each_emit. unfold quiet, trace_of. cbn [snd].
    induction (cp :: m) as [|x l IH]; [reflexivity | exact IH]. }
  intros _. apply silent_bind.
  { unfold ask. apply silent_bind; [apply silent_input | intros line; apply silent_ret]. }
  intros [|].
  - apply silent_bind; [apply silent_require_root | intros _].
    apply silent_bind; [now apply silent_emit | intros _; apply silent_ret].
  - apply silent_bind; [now apply silent_emit | intros _; apply silent_ret].
Qed.

(** The printing at the end of [main] always completes. *)
Lemma print_report_completes (report : list report_line) (total : Z)
      (tips : list string) (i : list string) :
  exists t,
    (emit (Print "🧾 RESULTS") ;;;
     emit (Print "------------------------------") ;;;
     for_each report (fun r => emit (PrintLine r)) ;;;
     emit (PrintTotal total) ;;;
     emit (Print "AI SUGGESTIONS:") ;;;
     for_each tips (fun tip => emit (PrintTip tip))) i = (Ret tt, i, t).
Proof.
  rewrite !bind_emit.
  rewrite (bind_det _ _ _ _ _ _ (for_each_emit PrintLine report i)).
  rewrite !bind_emit, for_each_emit. eexists. reflexivity.
Qed.

(** However a run is cut short (an exception of a collector, the end of the
    input at a prompt, the exit for want of root), nothing of the report has
    been printed: no report line, no total, no suggestion. *)
Lemma main_from_abort_reports_nothing (tests i : list string) :
  (forall u, result_of (main_from w tests i) <> Ret u) ->
  filter is_report (trace_of (main_from w tests i)) = [].
Proof.
  revert i. change (aborts_silently (main_from w tests)).
  unfold main_from.
  apply aborts_silently_bind; [apply silent_prepare_environment | intros ready].
  cbv zeta.
  apply aborts_silently_bind.
  { destruct (str_in "cpu" tests); [|apply silent_ret].
    apply silent_bind; [apply silent_cpu_info|].
    intros [[model cores] mhz]. apply silent_ret. }
  intros [cpu_s report1].
  apply aborts_silently_bind.
  { destruct (str_in "gpu" tests); [|apply silent_ret].
    apply silent_bind; [apply silent_gpu_info|].
    intros [gpu renderer]. apply silent_ret. }
  intros [gpu_s report2].
  apply aborts_silently_bind.
  { destruct (str_in "ram" tests); [|apply silent_ret].
    apply silent_bind; [apply silent_ram_info|].
    intros gb. apply silent_ret. }
  intros [ram_s report3].
  apply aborts_silently_bind.
  { destruct (str_in "disk" tests && ready)%bool; [|apply silent_ret].
    apply silent_bind; [apply silent_disk_health|].
    intros status. apply silent_ret. }
  intros [disk_s report4] i Hab. exfalso.
  destruct (print_report_completes report4 (cpu_s + gpu_s + ram_s + disk_s)
              (ai_suggestions cpu_s gpu_s ram_s disk_s) i) as [t E].
  apply (Hab tt). now rewrite E.
Qed.

End NoPartialReport.

(* ================================================================== *)
(** * Further properties of the code *)
(* ================================================================== *)

(** ** The GPU score *)

Lemma lower_ascii_idem (c : ascii) :
  PyStr.lower_ascii (PyStr.lower_ascii c) = PyStr.lower_ascii c.
Proof. destruct c as [[] [] [] [] [] [] [] []]; reflexivity. Qed.

Lemma lower_idem (s : string) : PyStr.lower (PyStr.lower s) = PyStr.lower s.
Proof.
  induction s as [|c s IH]; [reflexivity|].
  simpl. now rewrite lower_ascii_idem, IH.
Qed.

Lemma lower_truthy (s : string) : PyStr.truthy (PyStr.lower s) = PyStr.truthy s.
Proof. destruct s; reflexivity. Qed.

(** [gpu_score] returns one of five values: 6, 10, 13, 17 or 20. *)
Theorem gpu_score_values (gpu renderer : string) :
  In (gpu_score gpu renderer) [6; 10; 13; 17; 20].
Proof.
  unfold gpu_score.
  destruct (PyStr.contains "nvidia" (PyStr.lower gpu)
            || PyStr.contains "amd" (PyStr.lower gpu))%bool;
    [|destruct (PyStr.contains "intel" (PyStr.lower gpu))];
    destruct (PyStr.truthy renderer
              && negb (PyStr.contains "llvmpipe" (PyStr.lower renderer)))%bool;
    simpl; tauto.
Qed.

(** [gpu_score] does not see the case of the letters: two descriptions that
    are equal once lowered, with two renderers that are equal once lowered,
    receive the same score. *)
Theorem gpu_score_ignores_case (gpu gpu' renderer renderer' : string) :
  PyStr.lower gpu = PyStr.lower gpu' ->
  PyStr.lower renderer = PyStr.lower renderer' ->
  gpu_score gpu renderer = gpu_score gpu' renderer'.
Proof.
  intros Hg Hr. unfold gpu_score. rewrite Hg, Hr.
  rewrite <- (lower_truthy renderer), <- (lower_truthy renderer'), Hr.
  reflexivity.
Qed.

Lemma gpu_score_ignores_case_witness :
  gpu_score "VGA: NVIDIA Corporation" "Renderer: LLVMPIPE" =
  gpu_score "vga: nvidia corporation" "renderer: llvmpipe".
Proof.
  apply gpu_score_ignores_case; reflexivity.
Defined.

(** An adapter of NVIDIA or AMD is scored as such even when the description
    also names Intel (a hybrid-graphics machine lists both adapters): the
    score is 13 or 20, never the 10 or 17 of an Intel adapter. *)
Theorem gpu_score_discrete_adapter_first (gpu renderer : string) :
  PyStr.occurs_any_case "nvidia" gpu \/ PyStr.occurs_any_case "amd" gpu ->
  gpu_score gpu renderer = 13 \/ gpu_score gpu renderer = 20.
Proof.
  intros H.
  assert ((PyStr.contains "nvidia" (PyStr.lower gpu)
           || PyStr.contains "amd" (PyStr.lower gpu))%bool = true) as E.
  { apply orb_true_iff. destruct H as [H|H].
    - left. now apply (contains_lower_iff "nvidia" gpu eq_refl).
    - right. now apply (contains_lower_iff "amd" gpu eq_refl). }
  unfold gpu_score. rewrite E.
  destruct (PyStr.truthy renderer
            && negb (PyStr.contains "llvmpipe" (PyStr.lower renderer)))%bool;
    simpl; tauto.
Qed.

Lemma gpu_score_discrete_adapter_first_witness :
  let hybrid := "00:02.0 VGA compatible controller: Intel Corporation UHD Graphics
01:00.0 3D controller: NVIDIA Corporation GA107M" in
  gpu_score hybrid "" = 13 \/ gpu_score hybrid "" = 20.
Proof.
  apply gpu_score_discrete_adapter_first. left.
  exists "00:02.0 VGA compatible controller: Intel Corporation UHD Graphics
01:00.0 3D controller: ", "NVIDIA", " Corporation GA107M".
  split; reflexivity.
Defined.

(** ** The RAM collector and its score *)

Lemma round_gb_tenths (total_kb : Z) :
  exists tenths,
    round_gb total_kb = Fin (Qmake tenths 10) /\
    2 * Z.abs (tenths * 1048576 - 10 * total_kb) <= 1048576.
Proof.
  unfold round_gb. cbv zeta.
  pose proof (Z.div_mod (total_kb * 10) 1048576 ltac:(lia)) as Hdm.
  pose proof (Z.mod_pos_bound (total_kb * 10) 1048576 ltac:(lia)) as Hr.
  set (q := total_kb * 10 / 1048576) in *.
  set (r := (total_kb * 10) mod 1048576) in *.
  destruct (Z.ltb_spec (2 * r) 1048576) as [H1|H1].
  - exists q. split; [reflexivity | lia].
  - destruct (Z.ltb_spec 1048576 (2 * r)) as [H2|H2].
    + exists (q + 1). split; [reflexivity | lia].
    + destruct (Z.even q).
      * exists q. split; [reflexivity | lia].
      * exists (q + 1). split; [reflexivity | lia].
Qed.



(** The tier is chosen after the rounding, so the bounds in kibibytes lie
    half a tenth of a gibibyte below 16, 8 and 4 GiB: a machine reporting
    15.95 GiB or more scores 20. *)
Theorem ram_score_of_kilobytes (total_kb : Z) :
  Z.abs total_kb < 2 ^ 53 ->
  ram_score (round_gb total_kb) =
  if 16724788 <=? total_kb then 20
  else if 8336180 <=? total_kb then 13
  else if 4141876 <=? total_kb then 8
  else 4.
Proof.
  intros _.
  destruct (round_gb_tenths total_kb) as (t & E & B).
  rewrite E. unfold ram_score, PyNum.ge_int, Qle_bool. cbn [Qnum Qden inject_Z].
  repeat match goal with
         | |- context [?a <=? ?b] => destruct (Z.leb_spec a b)
         end; lia.
Qed.

Lemma ram_score_of_kilobytes_witness :
  ram_score (round_gb 16316412) = 13.
Proof.
  apply (ram_score_of_kilobytes 16316412). vm_compute. reflexivity.
Defined.



(** ** The CPU collector without a maximum frequency *)

(** When [lscpu] prints no "max MHz" line, the CPU collector does not fail:
    it returns the frequency 0, so the frequency adds 5 and the CPU score is
    10 or 15, never 20. *)
Theorem cpu_info_without_max_mhz
        (w : World) (i : list string) (field tok : string) (cores : Z) :
  index1 (PyText.split_once ":" (run_output w "lscpu | grep 'Model name'")) = Some field ->
  index_last (PyText.split (run_output w "lscpu | grep '^CPU(s):'")) = Some tok ->
  py_int w tok = Some cores ->
  run_output w "lscpu | grep 'max MHz'" = "" ->
  cpu_info w i =
  (Ret (PyText.strip field, cores, PyNum.of_Z 0), i,
   [Run "lscpu | grep 'Model name'"; Run "lscpu | grep '^CPU(s):'";
    Run "lscpu | grep 'max MHz'"]) /\
  cpu_score cores (PyNum.of_Z 0) = (if cores >=? 4 then 15 else 10).
Proof.
  intros Hm Hc Hi Hz. split.
  - unfold cpu_info. rewrite bind_run, Hm. cbn [or_raise]. rewrite bind_ret.
    cbv zeta. rewrite bind_run, Hc. cbn [or_raise]. rewrite bind_ret, Hi.
    cbn [or_raise]. rewrite bind_ret, bind_run, Hz. reflexivity.
  - unfold cpu_score. destruct (cores >=? 4); reflexivity.
Qed.

Lemma cpu_info_without_max_mhz_witness :
  cpu_info no_mhz_world [] =
  (Ret ("Virtual CPU", 2, PyNum.of_Z 0), [],
   [Run "lscpu | grep 'Model name'"; Run "lscpu | grep '^CPU(s):'";
    Run "lscpu | grep 'max MHz'"]).
Proof.
  apply (proj1 (cpu_info_without_max_mhz no_mhz_world []
                  "                           Virtual CPU" "2" 2
                  eq_refl eq_refl eq_refl eq_refl)).
Defined.

(** ** Prompts *)

Lemma leading_y (c : ascii) :
  Ascii.eqb "y" (PyStr.lower_ascii c) = true <-> c = "y"%char \/ c = "Y"%char.
Proof.
  destruct c as [[] [] [] [] [] [] [] []]; cbv; split; intros H;
    try discriminate H; try (destruct H as [H|H]; discriminate H); auto.
Qed.

(** [ask] takes one line of input and says yes exactly when the line begins
    with the letter y or Y; the line is not stripped, so an answer after a
    blank, and the empty answer, say no.  At the end of the input it raises
    [EOFError]. *)
Theorem ask_yes_iff_leading_y (msg line : string) (rest : list string) :
  (exists yes,
      ask msg (line :: rest) = (Ret yes, rest, [Prompt msg]) /\
      (yes = true <->
       exists tail, line = String "y" tail \/ line = String "Y" tail)) /\
  ask msg [] = (Raise EOFError, [], [Prompt msg]).
Proof.
  split; [|reflexivity].
  exists (PyStr.startswith "y" (PyStr.lower line)). split; [reflexivity|].
  destruct line as [|c tail].
  - simpl. split; [discriminate|]. intros (t & [H|H]); discriminate H.
  - cbn [PyStr.lower PyStr.startswith]. rewrite andb_true_r, leading_y. split.
    + intros [-> | ->]; exists tail; auto.
    + intros (t & [H|H]); injection H as -> _; auto.
Qed.

(** ** The menu *)





(** ** Dictionaries *)

Section Dictionaries.

Context {V : Type}.

Lemma set_item_keys (d : PyDict.dict V) (k : string) (v : V) (x : string) :
  In x (map fst (PyDict.set_item d k v)) <-> In x (map fst d) \/ x = k.
Proof.
  induction d as [|[k' v'] d IH]; simpl.
  - intuition.
  - destruct (String.eqb_spec k' k) as [->|N]; simpl; [intuition|].
    rewrite IH. intuition.
Qed.

Lemma set_item_NoDup (d : PyDict.dict V) (k : string) (v : V) :
  NoDup (map fst d) -> NoDup (map fst (PyDict.set_item d k v)).
Proof.
  induction d as [|[k' v'] d IH]; simpl; intros H.
  - constructor; [intros [] | constructor].
  - inversion H as [|? ? Hnin Hd]; subst.
    destruct (String.eqb_spec k' k) as [->|N]; simpl.
    + now constructor.
    + constructor; [|now apply IH].
      rewrite set_item_keys. intros [Hin | ->]; [now apply Hnin | now apply N].
Qed.

Lemma set_item_In (d : PyDict.dict V) (k : string) (v : V) (c : string) (p : V) :
  NoDup (map fst d) ->
  In (c, p) (PyDict.set_item d k v) <->
  (c = k /\ p = v) \/ (c <> k /\ In (c, p) d).
Proof.
  induction d as [|[k' v'] d IH]; simpl; intros H.
  - split.
    + intros [E|[]]. injection E as <- <-. now left.
    + intros [[-> ->]|[_ []]]. now left.
  - inversion H as [|? ? Hnin Hd]; subst.
    destruct (String.eqb_spec k' k) as [->|N]; simpl.
    + split.
      * intros [E|Hin]; [injection E as <- <-; now left|].
        right. split; [|now right].
        intros ->. apply Hnin. apply in_map_iff. now exists (k, p).
      * intros [[-> ->]|[Hne [E|Hin]]]; [now left | | now right].
        injection E as -> _. now contradiction Hne.
    + rewrite (IH Hd). split.
      * intros [E|[[-> ->]|[Hne Hin]]].
        -- injection E as <- <-. right. split; [exact N | now left].
        -- now left.
        -- right. split; [exact Hne | now right].
      * intros [[-> ->]|[Hne [E|Hin]]].
        -- right. now left.
        -- now left.
        -- right. right. now split.
Qed.

Lemma update_NoDup (d e : PyDict.dict V) :
  NoDup (map fst d) -> NoDup (map fst (PyDict.update d e)).
Proof.
  revert d. induction e as [|[k v] e IH]; intros d H; [exact H|].
  unfold PyDict.update. simpl. apply IH. now apply set_item_NoDup.
Qed.

End Dictionaries.

(** ** The tools a selection needs *)

Lemma all_tools_functional (c p p' : string) :
  In (c, p) all_tools -> In (c, p') all_tools -> p = p'.
Proof.
  unfold all_tools. simpl.
  intros H H'.
  repeat (destruct H as [H|H]; [injection H as <- <-|]); try contradiction;
    repeat (destruct H' as [H'|H']; [congruence|]); contradiction.
Qed.

Lemma registry_registered (t : string) :
  registered (PyDict.get TOOLS_BY_TEST t []).
Proof.
  unfold registered, TOOLS_BY_TEST, all_tools. cbn [PyDict.get].
  intros c p.
  repeat match goal with
         | |- context [String.eqb ?a t] => destruct (String.eqb a t)
         end; simpl; intuition.
Qed.

Lemma update_registered (d e : PyDict.dict string) (c p : string) :
  NoDup (map fst d) -> registered d -> registered e ->
  In (c, p) (PyDict.update d e) <-> In (c, p) d \/ In (c, p) e.
Proof.
  revert d. induction e as [|[k v] e IH]; intros d Hnd Hd He.
  - simpl. intuition.
  - change (PyDict.update d ((k, v) :: e))
      with (PyDict.update (PyDict.set_item d k v) e).
    assert (registered e) as He' by (intros x y Hin; apply He; now right).
    assert (registered (PyDict.set_item d k v)) as Hs.
    { intros x y Hin. apply (set_item_In d k v x y Hnd) in Hin.
      destruct Hin as [[-> ->]|[_ Hin]]; [apply He; now left | now apply Hd]. }
    rewrite (IH _ (set_item_NoDup d k v Hnd) Hs He').
    rewrite (set_item_In d k v c p Hnd). simpl. split.
    + intros [[[-> ->]|[_ Hin]]|Hin]; auto.
    + intros [Hin|[E|Hin]].
      * destruct (string_dec c k) as [->|N].
        -- left. left. split; [reflexivity|].
           apply (all_tools_functional k); [now apply Hd | apply He; now left].
        -- left. right. now split.
      * injection E as <- <-. left. now left.
      * now right.
Qed.

Lemma needed_tools_fold (tests : list string) (acc : PyDict.dict string) :
  NoDup (map fst acc) -> registered acc ->
  let needed :=
    fold_left (fun needed t => PyDict.update needed (PyDict.get TOOLS_BY_TEST t []))
              tests acc in
  NoDup (map fst needed) /\ registered needed /\
  forall c p,
    In (c, p) needed <->
    In (c, p) acc \/ exists t, In t tests /\ In (c, p) (PyDict.get TOOLS_BY_TEST t []).
Proof.
  revert acc. induction tests as [|t tests IH]; intros acc Hnd Hreg; cbv zeta.
  - simpl. repeat split; auto.
    intros [H|(t & [] & _)]. exact H.
  - cbn [fold_left].
    assert (registered (PyDict.update acc (PyDict.get TOOLS_BY_TEST t []))) as Hreg'.
    { intros c p Hin.
      apply (update_registered _ _ c p Hnd Hreg (registry_registered t)) in Hin.
      destruct Hin as [Hin|Hin]; [now apply Hreg | now apply (registry_registered t)]. }
    destruct (IH _ (update_NoDup acc (PyDict.get TOOLS_BY_TEST t []) Hnd) Hreg')
      as (Hn & Hr & Hin).
    split; [exact Hn|]. split; [exact Hr|].
    intros c p. rewrite Hin.
    rewrite (update_registered _ _ c p Hnd Hreg (registry_registered t)).
    split.
    + intros [[H|H]|(t' & Ht' & H)].
      * now left.
      * right. exists t. split; [now left | exact H].
      * right. exists t'. split; [now right | exact H].
    + intros [H|(t' & [<-|Ht'] & H)].
      * left. now left.
      * left. now right.
      * right. now exists t'.
Qed.

Lemma needed_tools_entries (tests : list string) :
  NoDup (map fst (needed_tools tests)) /\
  forall c p,
    In (c, p) (needed_tools tests) <->
    exists t, In t tests /\ In (c, p) (PyDict.get TOOLS_BY_TEST t []).
Proof.
  destruct (needed_tools_fold tests [] (NoDup_nil _) (fun c p H => match H with end))
    as (Hn & _ & Hin).
  split; [exact Hn|].
  intros c p. unfold needed_tools. rewrite Hin. split.
  - intros [[]|H]. exact H.
  - intros H. now right.
Qed.

(** The dictionary [needed] built by [prepare_environment] holds exactly the
    tools of the selected tests, each tool once, however often a test is
    listed and in whatever order; a name that is no test of the registry
    adds nothing. *)
Theorem needed_tools_union (tests : list string) :
  NoDup (map fst (needed_tools tests)) /\
  forall c p,
    In (c, p) (needed_tools tests) <->
    exists t, In t tests /\ In (c, p) (PyDict.get TOOLS_BY_TEST t []).
Proof. apply needed_tools_entries. Qed.

Lemma filter_keys_NoDup {V : Type} (f : string * V -> bool) (d : PyDict.dict V) :
  NoDup (map fst d) -> NoDup (map fst (filter f d)).
Proof.
  induction d as [|[c p] d IH]; intros Hn; [constructor|].
  inversion Hn as [|? ? Hnin Hd]; subst. cbn [filter].
  destruct (f (c, p)); [|now apply IH].
  cbn [map fst]. constructor; [|now apply IH].
  intros Hc. apply Hnin. apply in_map_iff in Hc.
  destruct Hc as ([c' p'] & E & Hf). simpl in E. subst c'.
  apply filter_In in Hf. apply in_map_iff. now exists (c, p').
Qed.

(** The tools reported missing are exactly the needed tools that are not on
    the search path, each once; so the installer is given a package only if
    one of its tools is needed and absent. *)
Theorem missing_tools_absent_needed (w : World) (tests : list string) :
  NoDup (map fst (missing_tools w tests)) /\
  (forall c p,
      In (c, p) (missing_tools w tests) <->
      which w c = false /\
      exists t, In t tests /\ In (c, p) (PyDict.get TOOLS_BY_TEST t [])) /\
  (forall p,
      In p (py_set (PyDict.values (missing_tools w tests))) <->
      exists c t, which w c = false /\ In t tests /\
                  In (c, p) (PyDict.get TOOLS_BY_TEST t [])).
Proof.
  destruct (needed_tools_entries tests) as [Hn Hin].
  assert (forall c p,
             In (c, p) (missing_tools w tests) <->
             which w c = false /\
             exists t, In t tests /\ In (c, p) (PyDict.get TOOLS_BY_TEST t [])) as Hm.
  { intros c p. unfold missing_tools, exists_. rewrite filter_In, Hin.
    cbn [fst]. rewrite negb_true_iff. tauto. }
  split; [|split; [exact Hm|]].
  - unfold missing_tools. now apply filter_keys_NoDup.
  - intros p. unfold py_set, PyDict.values. rewrite nodup_In, in_map_iff. split.
    + intros ([c q] & E & Hc). simpl in E. subst q.
      apply Hm in Hc. destruct Hc as (Hw & t & Ht & H). now exists c, t.
    + intros (c & t & Hw & Ht & H). exists (c, p). split; [reflexivity|].
      apply Hm. split; [exact Hw | now exists t].
Qed.

(** ** Runs that complete *)

Section CompletedRuns.

Variable w : World.

Lemma bind_ret_inv {A B : Type} (m : M A) (k : A -> M B) (i i' : list string)
      (b : B) (t : list event) :
  bind m k i = (Ret b, i', t) ->
  exists a i1 t1 t2,
    m i = (Ret a, i1, t1) /\ k a i1 = (Ret b, i', t2) /\ t = (t1 ++ t2)%list.
Proof.
  unfold bind. destruct (m i) as [[[a|e|c] i1] t1]; try discriminate.
  destruct (k a i1) as [[r i2] t2] eqn:E. intros H. injection H as -> -> <-.
  now exists a, i1, t1, t2.
Qed.

Lemma print_report_trace (report : list report_line) (total : Z)
      (tips : list string) (i : list string) :
  (emit (Print "🧾 RESULTS") ;;;
   emit (Print "------------------------------") ;;;
   for_each report (fun r => emit (PrintLine r)) ;;;
   emit (PrintTotal total) ;;;
   emit (Print "AI SUGGESTIONS:") ;;;
   for_each tips (fun tip => emit (PrintTip tip))) i =
  (Ret tt, i,
   (Print "🧾 RESULTS" :: Print "------------------------------"
      :: map PrintLine report
      ++ PrintTotal total :: Print "AI SUGGESTIONS:" :: map PrintTip tips)%list).
Proof.
  rewrite !bind_emit.
  rewrite (bind_det _ _ _ _ _ _ (for_each_emit PrintLine report i)).
  rewrite !bind_emit, for_each_emit. reflexivity.
Qed.

(** What each of the four guarded blocks of [main] leaves behind. *)
Lemma cpu_block_inv (sel : bool) (report : list report_line) (i i' : list string)
      (s : Z) (r : list report_line) (t : list event) :
  (if sel
   then bind (cpu_info w)
          (fun x => let '(model, cores, mhz) := x in
                    ret (cpu_score cores mhz,
                         (report ++ [CpuLine model (cpu_score cores mhz)])%list))
   else ret (0, report)) i = (Ret (s, r), i', t) ->
  quiet t /\
  if sel then (s = 10 \/ s = 15 \/ s = 20) /\ exists model, r = (report ++ [CpuLine model s])%list
  else s = 0 /\ r = report.
Proof.
  destruct sel.
  - intros H. apply bind_ret_inv in H.
    destruct H as ([[model cores] mhz] & i1 & t1 & t2 & Hc & Hr & ->).
    injection Hr as <- <- <- <-. split.
    + rewrite app_nil_r. pose proof (silent_cpu_info w i) as Hq.
      rewrite Hc in Hq. exact Hq.
    + split; [apply cpu_score_values | now exists model].
  - intros H. injection H as <- <- _ <-. repeat split.
Qed.

Lemma gpu_block_inv (sel : bool) (report : list report_line) (i i' : list string)
      (s : Z) (r : list report_line) (t : list event) :
  (if sel
   then bind (gpu_info w)
          (fun x => let '(gpu, renderer) := x in
                    ret (gpu_score gpu renderer,
                         (report ++ [GpuLine (gpu_score gpu renderer)])%list))
   else ret (0, report)) i = (Ret (s, r), i', t) ->
  quiet t /\
  if sel then 6 <= s <= 20 /\ r = (report ++ [GpuLine s])%list
  else s = 0 /\ r = report.
Proof.
  destruct sel.
  - intros H. apply bind_ret_inv in H.
    destruct H as ([gpu renderer] & i1 & t1 & t2 & Hc & Hr & ->).
    injection Hr as <- <- <- <-. split.
    + rewrite app_nil_r. pose proof (silent_gpu_info w i) as Hq.
      rewrite Hc in Hq. exact Hq.
    + split; [apply gpu_score_bounds | reflexivity].
  - intros H. injection H as <- <- _ <-. repeat split.
Qed.

Lemma ram_block_inv (sel : bool) (report : list report_line) (i i' : list string)
      (s : Z) (r : list report_line) (t : list event) :
  (if sel
   then bind (ram_info w)
          (fun gb => ret (ram_score gb, (report ++ [RamLine gb (ram_score gb)])%list))
   else ret (0, report)) i = (Ret (s, r), i', t) ->
  quiet t /\
  if sel then In s [4; 8; 13; 20] /\ exists gb, r = (report ++ [RamLine gb s])%list
  else s = 0 /\ r = report.
Proof.
  destruct sel.
  - intros H. apply bind_ret_inv in H.
    destruct H as (gb & i1 & t1 & t2 & Hc & Hr & ->).
    injection Hr as <- <- <- <-. split.
    + rewrite app_nil_r. pose proof (silent_ram_info w i) as Hq.
      rewrite Hc in Hq. exact Hq.
    + split; [apply ram_score_values | now exists gb].
  - intros H. injection H as <- <- _ <-. repeat split.
Qed.

Lemma disk_block_inv (sel : bool) (report : list report_line) (i i' : list string)
      (s : Z) (r : list report_line) (t : list event) :
  (if sel
   then bind (disk_health w)
          (fun status => ret (disk_score status,
                              (report ++ [DiskLine status (disk_score status)])%list))
   else ret (0, report)) i = (Ret (s, r), i', t) ->
  quiet t /\
  if sel then (s = 20 \/ s = 8) /\ exists status, r = (report ++ [DiskLine status s])%list
  else s = 0 /\ r = report.
Proof.
  destruct sel.
  - intros H. apply bind_ret_inv in H.
    destruct H as (status & i1 & t1 & t2 & Hc & Hr & ->).
    injection Hr as <- <- <- <-. split.
    + rewrite app_nil_r. pose proof (silent_disk_health w i) as Hq.
      rewrite Hc in Hq. exact Hq.
    + split; [apply (disk_score_values status) | now exists status].
  - intros H. injection H as <- <- _ <-. repeat split.
Qed.

End CompletedRuns.

Section Reports.

Variable w : World.

Lemma quiet_printed (t : list event) :
  quiet t -> printed_lines t = [] /\ printed_totals t = [] /\ printed_tips t = [].
Proof.
  unfold quiet. induction t as [|e t IH]; [auto|].
  destruct e; cbn [filter is_report]; intros H; try discriminate H;
    destruct (IH H) as (H1 & H2 & H3); cbn; auto.
Qed.

(** The shape of every run of [main]'s body that completes. *)
Lemma main_from_completed (tests i i' : list string) (t : list event) :
  main_from w tests i = (Ret tt, i', t) ->
  exists ready t0 report cpu_s gpu_s ram_s disk_s,
    result_of (prepare_environment w tests i) = Ret ready /\
    quiet t0 /\
    t = (t0 ++ Print "🧾 RESULTS" :: Print "------------------------------"
            :: map PrintLine report
            ++ PrintTotal (cpu_s + gpu_s + ram_s + disk_s)
            :: Print "AI SUGGESTIONS:"
            :: map PrintTip (ai_suggestions cpu_s gpu_s ram_s disk_s))%list /\
    map line_subsystem report = filter (collected tests ready) [CPU; GPU; RAM; Disk] /\
    fold_right Z.add 0 (map line_score report) = cpu_s + gpu_s + ram_s + disk_s /\
    (if collected tests ready CPU then cpu_s = 10 \/ cpu_s = 15 \/ cpu_s = 20 else cpu_s = 0) /\
    (if collected tests ready GPU then 6 <= gpu_s <= 20 else gpu_s = 0) /\
    (if collected tests ready RAM then In ram_s [4; 8; 13; 20] else ram_s = 0) /\
    (if collected tests ready Disk then disk_s = 20 \/ disk_s = 8 else disk_s = 0).
Proof.
  intros H. unfold main_from in H.
  apply bind_ret_inv in H. destruct H as (ready & i1 & t1 & u1 & Hp & H & ->).
  cbv zeta in H.
  apply bind_ret_inv in H. destruct H as ([cpu_s r1] & i2 & t2 & u2 & Hc & H & ->).
  apply bind_ret_inv in H. destruct H as ([gpu_s r2] & i3 & t3 & u3 & Hg & H & ->).
  apply bind_ret_inv in H. destruct H as ([ram_s r3] & i4 & t4 & u4 & Hr & H & ->).
  apply bind_ret_inv in H. destruct H as ([disk_s r4] & i5 & t5 & u5 & Hd & H & ->).
  rewrite print_report_trace in H. injection H as <- <-.
  apply cpu_block_inv in Hc. destruct Hc as [Qc Fc].
  apply gpu_block_inv in Hg. destruct Hg as [Qg Fg].
  apply ram_block_inv in Hr. destruct Hr as [Qr Fr].
  apply disk_block_inv in Hd. destruct Hd as [Qd Fd].
  exists ready, (t1 ++ t2 ++ t3 ++ t4 ++ t5)%list, r4, cpu_s, gpu_s, ram_s, disk_s.
  split; [now rewrite Hp|].
  split.
  { pose proof (silent_prepare_environment w tests i) as Qp. rewrite Hp in Qp.
    repeat apply quiet_app; assumption. }
  split; [now rewrite <- !app_assoc|].
  cbn [filter collected test_name].
  destruct (str_in "cpu" tests), (str_in "gpu" tests), (str_in "ram" tests),
           (str_in "disk" tests && ready)%bool;
    repeat match goal with
           | H : _ /\ _ |- _ => destruct H
           | H : exists _, _ |- _ => destruct H
           end; subst; cbn [app map line_subsystem line_score fold_right];
    repeat split; auto; lia.
Qed.

End Reports.

Section ReportTheorems.

Variable w : World.

Lemma printed_lines_app (t1 t2 : list event) :
  printed_lines (t1 ++ t2) = (printed_lines t1 ++ printed_lines t2)%list.
Proof. apply flat_map_app. Qed.

Lemma printed_totals_app (t1 t2 : list event) :
  printed_totals (t1 ++ t2) = (printed_totals t1 ++ printed_totals t2)%list.
Proof. apply flat_map_app. Qed.

Lemma printed_tips_app (t1 t2 : list event) :
  printed_tips (t1 ++ t2) = (printed_tips t1 ++ printed_tips t2)%list.
Proof. apply flat_map_app. Qed.

Lemma printed_of_lines (report : list report_line) :
  printed_lines (map PrintLine report) = report /\
  printed_totals (map PrintLine report) = [] /\
  printed_tips (map PrintLine report) = [].
Proof.
  induction report as [|r report (H1 & H2 & H3)]; [auto|].
  unfold printed_lines, printed_totals, printed_tips in *.
  cbn [map flat_map app]. now rewrite H1, H2, H3.
Qed.

Lemma printed_of_tips (tips : list string) :
  printed_lines (map PrintTip tips) = [] /\
  printed_totals (map PrintTip tips) = [] /\
  printed_tips (map PrintTip tips) = tips.
Proof.
  induction tips as [|s tips (H1 & H2 & H3)]; [auto|].
  unfold printed_lines, printed_totals, printed_tips in *.
  cbn [map flat_map app]. now rewrite H1, H2, H3.
Qed.

(** What is read back from the events of a completed run. *)
Lemma printed_of_report (t0 : list event) (report : list report_line)
      (total : Z) (tips : list string) :
  quiet t0 ->
  let t := (t0 ++ Print "🧾 RESULTS" :: Print "------------------------------"
               :: map PrintLine report
               ++ PrintTotal total :: Print "AI SUGGESTIONS:" :: map PrintTip tips)%list in
  printed_lines t = report /\ printed_totals t = [total] /\ printed_tips t = tips.
Proof.
  intros Hq. cbv zeta.
  destruct (quiet_printed t0 Hq) as (Q1 & Q2 & Q3).
  destruct (printed_of_lines report) as (L1 & L2 & L3).
  destruct (printed_of_tips tips) as (T1 & T2 & T3).
  change (t0 ++ Print "🧾 RESULTS" :: Print "------------------------------"
             :: map PrintLine report
             ++ PrintTotal total :: Print "AI SUGGESTIONS:" :: map PrintTip tips)%list
    with (t0 ++ [Print "🧾 RESULTS"; Print "------------------------------"]
             ++ map PrintLine report
             ++ [PrintTotal total; Print "AI SUGGESTIONS:"] ++ map PrintTip tips)%list.
  rewrite !printed_lines_app, !printed_totals_app, !printed_tips_app.
  rewrite Q1, Q2, Q3, L1, L2, L3, T1, T2, T3.
  cbn. rewrite app_nil_r. auto.
Qed.

(** Every run that completes prints exactly one total; it is the sum of the
    scores shown on the report lines, and it lies between 0 and 80: the 100
    it is printed against is out of reach. *)
Theorem main_from_total_is_sum_at_most_80
        (tests i i' : list string) (t : list event) :
  main_from w tests i = (Ret tt, i', t) ->
  exists total,
    printed_totals t = [total] /\
    total = fold_right Z.add 0 (map line_score (printed_lines t)) /\
    0 <= total <= 80.
Proof.
  intros H. apply main_from_completed in H.
  destruct H as (ready & t0 & report & c & g & r & d & _ & Hq & -> & _ & Hsum
                 & Fc & Fg & Fr & Fd).
  destruct (printed_of_report t0 report (c + g + r + d)
              (ai_suggestions c g r d) Hq) as (P1 & P2 & _).
  exists (c + g + r + d). rewrite P1, P2, Hsum. split; [reflexivity|].
  split; [reflexivity|].
  destruct (collected tests ready CPU), (collected tests ready GPU),
           (collected tests ready RAM), (collected tests ready Disk);
    simpl in Fr; lia.
Qed.

(** The lines of a completed run's report are those of the subsystems that
    were collected, one each, in the order CPU, GPU, RAM, Disk whatever the
    order of the selection: a subsystem is collected when its test is
    selected and, for the disk only, [prepare_environment] returned true. *)
Theorem main_from_report_lines_in_display_order
        (tests i i' : list string) (t : list event) :
  main_from w tests i = (Ret tt, i', t) ->
  exists ready,
    result_of (prepare_environment w tests i) = Ret ready /\
    map line_subsystem (printed_lines t) =
    filter (collected tests ready) [CPU; GPU; RAM; Disk].
Proof.
  intros H. apply main_from_completed in H.
  destruct H as (ready & t0 & report & c & g & r & d & Hp & Hq & -> & Hl & _).
  destruct (printed_of_report t0 report (c + g + r + d)
              (ai_suggestions c g r d) Hq) as (P1 & _).
  exists ready. now rewrite P1.
Qed.

Lemma balanced_in_suggestions (c g r d : Z) :
  In tip_balanced (ai_suggestions c g r d) -> all_meet c g r d.
Proof.
  unfold ai_suggestions, all_meet.
  destruct (Z.ltb_spec c 12), (Z.ltb_spec g 12), (Z.ltb_spec r 13), (Z.ltb_spec d 15);
    cbn [app In]; intros Hin; try lia;
    repeat (destruct Hin as [Hin|Hin]; [discriminate Hin|]); contradiction.
Qed.

(** A completed run prints the tips that [ai_suggestions] gives for the four
    scores, at least one; and it says that the system is well balanced only
    when all four tests were selected and [prepare_environment] returned
    true, because the score of a subsystem that was not collected is 0. *)
Theorem main_from_balanced_needs_all_four
        (tests i i' : list string) (t : list event) :
  main_from w tests i = (Ret tt, i', t) ->
  printed_tips t <> [] /\
  (In tip_balanced (printed_tips t) ->
   (forall s, str_in (test_name s) tests = true) /\
   result_of (prepare_environment w tests i) = Ret true).
Proof.
  intros H. apply main_from_completed in H.
  destruct H as (ready & t0 & report & c & g & r & d & Hp & Hq & -> & _ & _
                 & Fc & Fg & Fr & Fd).
  destruct (printed_of_report t0 report (c + g + r + d)
              (ai_suggestions c g r d) Hq) as (_ & _ & P3).
  rewrite P3. split.
  - unfold ai_suggestions.
    destruct (c <? 12), (g <? 12), (r <? 13), (d <? 15); discriminate.
  - intros Hb. apply balanced_in_suggestions in Hb.
    destruct Hb as (Hc & Hg & Hr & Hd).
    cbn [collected test_name] in Fc, Fg, Fr, Fd.
    destruct (str_in "cpu" tests) eqn:E1; [|lia].
    destruct (str_in "gpu" tests) eqn:E2; [|lia].
    destruct (str_in "ram" tests) eqn:E3; [|lia].
    destruct (str_in "disk" tests) eqn:E4; [|simpl in Fd; lia].
    destruct ready; [|simpl in Fd; lia].
    split; [intros []; assumption | exact Hp].
Qed.

End ReportTheorems.

Lemma main_from_total_is_sum_at_most_80_witness :
  exists total,
    printed_totals (trace_of (main_from example_world ["cpu"; "ram"] [])) = [total] /\
    total = fold_right Z.add 0
              (map line_score
                   (printed_lines (trace_of (main_from example_world ["cpu"; "ram"] [])))) /\
    0 <= total <= 80.
Proof.
  apply (main_from_total_is_sum_at_most_80 example_world ["cpu"; "ram"] [] []).
  reflexivity.
Defined.

Lemma main_from_report_lines_in_display_order_witness :
  exists ready,
    result_of (prepare_environment healthy_world ["disk"; "ram"; "cpu"] []) = Ret ready /\
    map line_subsystem
        (printed_lines (trace_of (main_from healthy_world ["disk"; "ram"; "cpu"] []))) =
    filter (collected ["disk"; "ram"; "cpu"] ready) [CPU; GPU; RAM; Disk].
Proof.
  apply (main_from_report_lines_in_display_order healthy_world
           ["disk"; "ram"; "cpu"] [] []).
  reflexivity.
Defined.

Lemma main_from_balanced_needs_all_four_witness :
  (forall s, str_in (test_name s) ["cpu"; "gpu"; "ram"; "disk"] = true) /\
  result_of (prepare_environment healthy_world ["cpu"; "gpu"; "ram"; "disk"] []) = Ret true.
Proof.
  apply (proj2 (main_from_balanced_needs_all_four healthy_world
                  ["cpu"; "gpu"; "ram"; "disk"] [] [] _ eq_refl)).
  vm_compute. left. reflexivity.
Defined.

(** ** The disk score of a machine *)

(** The disk collector always returns, and the score made of its status is 8
    when the SMART output of some listed device contains FAILED and 20 when
    none does (a machine without devices included). *)
Theorem disk_score_of_disk_health (w : World) (i : list string) :
  let disks := PyText.splitlines (run_output w "lsblk -nd -o NAME") in
  exists status t,
    disk_health w i = (Ret status, i, t) /\
    (disk_score status = 8 <->
     exists d, In d disks /\ PyStr.occurs "FAILED" (run_output w (smart_cmd d))) /\
    (disk_score status = 20 <->
     forall d, In d disks -> ~ PyStr.occurs "FAILED" (run_output w (smart_cmd d))).
Proof.
  cbv zeta. unfold disk_health. 
  set (disks := PyText.splitlines (run_output w "lsblk -nd -o NAME")).
  destruct (first_failing_split w disks) as [Hall | (pre & d & post & E & Hpre & Hd)].
  - exists "Healthy", (Run "lsblk -nd -o NAME" :: smart_queries disks).
    split; [rewrite bind_run; fold disks;
            now rewrite (disk_health_loop_all_passing w disks i Hall)|].
    rewrite Forall_forall in Hall. split; split.
    + discriminate.
    + intros (x & Hin & Hocc). exfalso. apply contains_occurs in Hocc.
      specialize (Hall x Hin). unfold smart_failed in Hall. congruence.
    + intros _ x Hin Hocc. apply contains_occurs in Hocc.
      specialize (Hall x Hin). unfold smart_failed in Hall. congruence.
    + reflexivity.
  - exists "Failing", (Run "lsblk -nd -o NAME" :: smart_queries (pre ++ [d])).
    split; [rewrite bind_run; fold disks; rewrite E;
            now rewrite (disk_health_loop_first_failing w pre d post i Hpre Hd)|].
    assert (In d disks) as Hin by (rewrite E; apply in_or_app; right; now left).
    split; split.
    + intros _. exists d. split; [exact Hin | now apply contains_occurs].
    + reflexivity.
    + discriminate.
    + intros Hnone. exfalso. apply (Hnone d Hin). now apply contains_occurs.
Qed.

(** ** The installer *)

Section Installer.

Variable w : World.













End Installer.

Section InstallerSafety.

Variable w : World.







End InstallerSafety.


(** ** Further properties of the CPU score and collector *)

(** The cap of [cpu_score] is never applied: the score is the plain sum of
    its two parts, one of 10, 15 and 20, so 25 is never reached. *)
Theorem cpu_score_never_capped (cores : Z) (mhz : pynum) :
  cpu_score cores mhz =
  (if cores >=? 4 then 10 else 5) + (if PyNum.ge_int mhz 3000 then 10 else 5) /\
  In (cpu_score cores mhz) [10; 15; 20].
Proof.
  unfold cpu_score.
  destruct (cores >=? 4), (PyNum.ge_int mhz 3000); simpl; tauto.
Qed.

(** More cores and a higher frequency never lower the CPU score. *)
Theorem cpu_score_monotone (c c' : Z) (f f' : pynum) :
  c <= c' -> PyNum.le f f' = true -> cpu_score c f <= cpu_score c' f'.
Proof.
  intros Hc Hf. unfold cpu_score.
  pose proof (ge_int_mono f f' 3000 Hf) as Hm.
  destruct (Z.geb_spec c 4), (Z.geb_spec c' 4); try lia;
    destruct (PyNum.ge_int f 3000);
    try (rewrite (Hm eq_refl)); try destruct (PyNum.ge_int f' 3000); simpl; lia.
Qed.

Lemma cpu_score_monotone_witness :
  cpu_score 2 (Fin 2400) <= cpu_score 8 PosInf.
Proof.
  apply cpu_score_monotone; [lia | reflexivity].
Defined.

(** The CPU collector reads no input, never exits and raises nothing but
    [IndexError] and [ValueError]; the commands it runs are the first one,
    two or three of its [lscpu] pipelines, in their order. *)
Theorem cpu_info_effects (w : World) (i : list string) :
  exists r t,
    cpu_info w i = (r, i, t) /\
    (r = Raise IndexError \/ r = Raise ValueError \/ exists v, r = Ret v) /\
    (t = [Run "lscpu | grep 'Model name'"] \/
     t = [Run "lscpu | grep 'Model name'"; Run "lscpu | grep '^CPU(s):'"] \/
     t = [Run "lscpu | grep 'Model name'"; Run "lscpu | grep '^CPU(s):'";
          Run "lscpu | grep 'max MHz'"]).
Proof.
  assert (forall (r : outcome (string * Z * pynum)) (t : list event),
             (r = Raise IndexError \/ r = Raise ValueError \/ exists v, r = Ret v) ->
             (t = [Run "lscpu | grep 'Model name'"] \/
              t = [Run "lscpu | grep 'Model name'"; Run "lscpu | grep '^CPU(s):'"] \/
              t = [Run "lscpu | grep 'Model name'"; Run "lscpu | grep '^CPU(s):'";
                   Run "lscpu | grep 'max MHz'"]) ->
             forall x, x = (r, i, t) ->
             exists r' t',
               x = (r', i, t') /\
               (r' = Raise IndexError \/ r' = Raise ValueError \/ exists v, r' = Ret v) /\
               (t' = [Run "lscpu | grep 'Model name'"] \/
                t' = [Run "lscpu | grep 'Model name'"; Run "lscpu | grep '^CPU(s):'"] \/
                t' = [Run "lscpu | grep 'Model name'"; Run "lscpu | grep '^CPU(s):'";
                      Run "lscpu | grep 'max MHz'"])) as Hpack.
  { intros r t Hr Ht x ->. now exists r, t. }
  unfold cpu_info. rewrite bind_run.
  destruct (index1 (PyText.split_once ":" (run_output w "lscpu | grep 'Model name'")))
    as [field|]; cbn [or_raise];
    [|eapply Hpack; [| |reflexivity]; auto].
  rewrite bind_ret. cbv zeta. rewrite bind_run.
  destruct (index_last (PyText.split (run_output w "lscpu | grep '^CPU(s):'")))
    as [tok|]; cbn [or_raise];
    [|eapply Hpack; [| |reflexivity]; auto].
  rewrite bind_ret.
  destruct (py_int w tok) as [cores|]; cbn [or_raise];
    [|eapply Hpack; [| |reflexivity]; auto].
  rewrite bind_ret, bind_run.
  destruct (PyStr.truthy (run_output w "lscpu | grep 'max MHz'"));
    [|eapply Hpack; [| |reflexivity]; eauto].
  unfold bind, or_raise, ret, raise.
  destruct (index_last (PyText.split (run_output w "lscpu | grep 'max MHz'")))
    as [tok'|]; [destruct (py_float w tok') as [mhz|]|];
    (eapply Hpack; [| |reflexivity]; eauto).
Qed.

(** ** Selections that need no tool *)

(** When no selected test has an entry with tools in the registry (the RAM
    test, which reads /proc/meminfo, or a name the registry does not know),
    [prepare_environment] returns true at once: it prints nothing, asks
    nothing and does not depend on the search path. *)
Theorem prepare_environment_nothing_needed (w : World) (tests i : list string) :
  (forall t, In t tests -> PyDict.get TOOLS_BY_TEST t [] = []) ->
  prepare_environment w tests i = (Ret true, i, []).
Proof.
  intros H. apply prepare_environment_none.
  destruct (missing_tools w tests) as [|[c p] m] eqn:E; [reflexivity|].
  exfalso.
  assert (In (c, p) (missing_tools w tests)) as Hin by (rewrite E; now left).
  unfold missing_tools in Hin. apply filter_In in Hin. destruct Hin as [Hin _].
  apply (proj2 (needed_tools_entries tests)) in Hin.
  destruct Hin as (t & Ht & Hc). rewrite (H t Ht) in Hc. exact Hc.
Qed.

Lemma prepare_environment_nothing_needed_witness :
  prepare_environment bare_root_world ["ram"; "memory"] ["y"] = (Ret true, ["y"], []).
Proof.
  apply prepare_environment_nothing_needed.
  intros t [<-|[<-|[]]]; reflexivity.
Defined.
